(** * Decorators of python-decorators-0x01

    A shallow embedding of the five decorators
    ([log_queries], [with_db_connection], [transactional], [cache_query],
    [retry_on_failure]) as transformers of effectful Python callables.

    A call runs on a [world]: the environment the wrapped functions work on
    (database contents, clock, ...), the trace of observable events the
    decorators and the driver produce, the module-level dictionary
    [query_cache] and the allocator of connection handles.  Exceptions are
    results ([Raise e]); [try]/[except]/[finally] are case analyses on the
    outcome of the protected call.

    What the decorators call but do not define is taken as a parameter:
    [time.sleep], which may refuse a delay, and the driver's [commit] and
    [rollback], which may raise. *)

From Stdlib Require Import ZArith Lia Ascii String.
From stdpp Require Import base gmap strings list pretty.

#[local] Set Warnings "-register-all".

(** ** Python values *)

(** The fragment of Python objects the decorators inspect: [None], integers,
    strings (code points below 256), lists and connection handles. *)
Inductive value : Type :=
| VNone
| VInt (n : Z)
| VStr (s : string)
| VList (items : list value)
| VConn (c : nat).

(** [bool(v)], as used by [if query:], [not query] and [x or y]. *)
Definition truthy (v : value) : bool :=
  match v with
  | VNone => false
  | VInt n => negb (n =? 0)%Z
  | VStr EmptyString => false
  | VStr _ => true
  | VList [] => false
  | VList _ => true
  | VConn _ => true
  end.

(** [x or y] *)
Definition py_or (x y : value) : value := if truthy x then x else y.

(** Dictionary keys: the hashable values.  A list is not hashable. *)
Inductive key : Type :=
| KNone
| KInt (n : Z)
| KStr (s : string)
| KConn (c : nat).

Definition key_encode (k : key) : unit + Z + string + nat :=
  match k with
  | KNone => inl (inl (inl tt))
  | KInt n => inl (inl (inr n))
  | KStr s => inl (inr s)
  | KConn c => inr c
  end.

Definition key_decode (x : unit + Z + string + nat) : key :=
  match x with
  | inl (inl (inl _)) => KNone
  | inl (inl (inr n)) => KInt n
  | inl (inr s) => KStr s
  | inr c => KConn c
  end.

#[global] Instance key_eq_dec : EqDecision key.
Proof. solve_decision. Defined.

#[global] Instance key_countable : Countable key.
Proof.
  apply (inj_countable' key_encode key_decode).
  intros []; reflexivity.
Defined.

(** [hash(v)]: [None] stands for [TypeError: unhashable type]. *)
Definition hash_key (v : value) : option key :=
  match v with
  | VNone => Some KNone
  | VInt n => Some (KInt n)
  | VStr s => Some (KStr s)
  | VList _ => None
  | VConn c => Some (KConn c)
  end.

(** ** Exceptions *)

(** Where an exception class sits in the hierarchy the [except] clauses of
    the decorators test: below [sqlite3.Error], elsewhere below [Exception],
    or below [BaseException] only ([KeyboardInterrupt], [SystemExit],
    [GeneratorExit]). *)
Inductive exn_base : Type := SqliteError | StdException | BaseOnly.

Record exn : Type := Exn {
  exn_base_of : exn_base;
  exn_type : string;      (* type(e).__name__ *)
  exn_str : string        (* str(e) *)
}.

Definition isinstance_Exception (e : exn) : bool :=
  match exn_base_of e with BaseOnly => false | _ => true end.

Definition isinstance_sqlite_Error (e : exn) : bool :=
  match exn_base_of e with SqliteError => true | _ => false end.

Definition ValueError (msg : string) : exn := Exn StdException "ValueError" msg.
Definition TypeError (msg : string) : exn := Exn StdException "TypeError" msg.

Inductive outcome : Type :=
| Return (v : value)
| Raise (e : exn).

(** ** Observable events *)

Inductive level : Type := INFO | WARNING | ERROR.

Inductive event : Type :=
| EvLog (lvl : level) (msg : string)                 (* logger.info / warning / error *)
| EvPrint (msg : string)                             (* print(...) *)
| EvSleep (seconds : Z)                              (* time.sleep(...) *)
| EvConnect (path : string) (c : nat)                (* sqlite3.connect(path) *)
| EvClose (c : nat)                                  (* conn.close() *)
| EvCommit (c : nat)                                 (* conn.commit() *)
| EvRollback (c : nat)                               (* conn.rollback() *)
| EvCall (name : string) (args : list value) (kwargs : gmap string value).
                                                     (* a user function is entered *)

Definition is_call (ev : event) : bool :=
  match ev with EvCall _ _ _ => true | _ => false end.

Definition is_log (ev : event) : bool :=
  match ev with EvLog _ _ => true | _ => false end.

Definition is_connect (ev : event) : bool :=
  match ev with EvConnect _ _ => true | _ => false end.

Definition is_close (ev : event) : bool :=
  match ev with EvClose _ => true | _ => false end.

Definition is_rollback (ev : event) : bool :=
  match ev with EvRollback _ => true | _ => false end.

Definition count_events (p : event -> bool) (t : list event) : nat :=
  length (filter (fun ev => p ev = true) t).

(** ** Worlds and callables *)

Section Embedding.

Context {W : Type}.

Record world : Type := World {
  w_env : W;                          (* what the wrapped functions work on *)
  w_trace : list event;               (* events so far, oldest first *)
  query_cache : gmap key value;       (* 4-cache_query.py: query_cache = {} *)
  w_next_conn : nat                   (* next fresh connection handle *)
}.

Definition emit (ev : event) (w : world) : world :=
  World (w_env w) (w_trace w ++ [ev]) (query_cache w) (w_next_conn w).

Definition set_env (u : W) (w : world) : world :=
  World u (w_trace w) (query_cache w) (w_next_conn w).

Definition set_cache (m : gmap key value) (w : world) : world :=
  World (w_env w) (w_trace w) m (w_next_conn w).

(** A callable taking [*args, **kwargs]. *)
Definition pyfun : Type :=
  list value -> gmap string value -> world -> outcome * world.

(** A callable with the metadata [functools.wraps] copies and
    [inspect.signature] reads. *)
Record pyfunc : Type := PyFunc {
  fn_name : string;              (* __name__ *)
  fn_qualname : string;          (* __qualname__, which error messages name *)
  fn_params : list string;       (* list(inspect.signature(f).parameters.keys()) *)
  fn_call : pyfun
}.

(** [@functools.wraps(func)] *)
Definition wraps (func : pyfunc) (wrapper : pyfun) : pyfunc :=
  PyFunc (fn_name func) (fn_qualname func) (fn_params func) wrapper.

(** A function written by the user of the decorators.  Its body sees its
    arguments and the environment; entering it is recorded in the trace (the
    call counter).  It has no access to the decorators' own state. *)
Record pydef : Type := PyDef {
  def_name : string;
  def_qualname : string;
  def_params : list string;
  def_body : list value -> gmap string value -> W -> outcome * W
}.

Definition define (d : pydef) : pyfunc :=
  PyFunc (def_name d) (def_qualname d) (def_params d)
    (fun args kwargs w =>
       let '(o, u) := def_body d args kwargs (w_env w) in
       (o, set_env u (emit (EvCall (def_name d) args kwargs) w))).

(** Binding of a call to the signature [(conn, *args, **kwargs)]; [name] is
    the qualified name of the function called. *)
Definition bind_conn (name : string) (body : value -> pyfun) : pyfun :=
  fun args kwargs w =>
    match args with
    | conn :: rest =>
        match kwargs !! "conn" with
        | Some _ =>
            (Raise (TypeError (name +:+ "() got multiple values for argument 'conn'")), w)
        | None => body conn rest kwargs w
        end
    | [] =>
        match kwargs !! "conn" with
        | Some conn => body conn [] (delete "conn" kwargs) w
        | None =>
            (Raise (TypeError (name +:+ "() missing 1 required positional argument: 'conn'")), w)
        end
    end.

(** ** The driver *)

(** [sqlite3.connect(path)]: a fresh handle. *)
Definition connect (path : string) (w : world) : nat * world :=
  let c := w_next_conn w in
  (c, World (w_env w) (w_trace w ++ [EvConnect path c]) (query_cache w) (S c)).

(** [type(v).__name__] *)
Definition type_name (v : value) : string :=
  match v with
  | VNone => "NoneType"
  | VInt _ => "int"
  | VStr _ => "str"
  | VList _ => "list"
  | VConn _ => "Connection"
  end.

Definition AttributeError (v : value) (attr : string) : exn :=
  Exn StdException "AttributeError"
    ("'" +:+ type_name v +:+ "' object has no attribute '" +:+ attr +:+ "'").

(** What the database does when asked to commit or to roll back on a
    connection: it acts on the environment and may raise ([Some e]), as on
    a closed connection or a failing write. *)
Record driver : Type := Driver {
  conn_commit : nat -> W -> option exn * W;       (* conn.commit() *)
  conn_rollback : nat -> W -> option exn * W      (* conn.rollback() *)
}.

(** [conn.<attr>()] for [commit] and [rollback]: on a connection the call is
    recorded and [run] by the driver; any other value has no such method. *)
Definition conn_method (attr : string) (ev : nat -> event)
    (run : nat -> W -> option exn * W) (conn : value) (w : world)
  : option exn * world :=
  match conn with
  | VConn c =>
      let '(raised, u) := run c (w_env w) in
      (raised, set_env u (emit (ev c) w))
  | _ => (Some (AttributeError conn attr), w)
  end.

End Embedding.

Arguments world : clear implicits.
Arguments pyfun : clear implicits.
Arguments pyfunc : clear implicits.
Arguments pydef : clear implicits.
Arguments driver : clear implicits.

(** ** Library functions the decorators call *)

(** [list.index(x)]: position of the first occurrence, [None] for
    [ValueError]. *)
Fixpoint py_index (x : string) (l : list string) : option nat :=
  match l with
  | [] => None
  | y :: l' => if decide (x = y) then Some 0%nat else S <$> py_index x l'
  end.

(** [c.isspace()] for a code point below 256. *)
Definition is_space (a : ascii) : bool :=
  let n := nat_of_ascii a in
  ((9 <=? n)%nat && (n <=? 13)%nat) || ((28 <=? n)%nat && (n <=? 32)%nat)
  || (n =? 133)%nat || (n =? 160)%nat.

(** [s.split()]: the maximal runs of non-whitespace characters; [cur] is the
    run being read. *)
Fixpoint py_split_from (cur : option string) (s : string) : list string :=
  match s with
  | EmptyString => match cur with Some word => [word] | None => [] end
  | String a s' =>
      if is_space a then
        match cur with
        | Some word => word :: py_split_from None s'
        | None => py_split_from None s'
        end
      else py_split_from (Some (default EmptyString cur +:+ String a EmptyString)) s'
  end.

Definition py_split (s : string) : list string := py_split_from None s.

(** [sep.join(words)] *)
Definition py_join (sep : string) (words : list string) : string :=
  String.concat sep words.

(** [range(a, b)] *)
Definition py_range (a b : Z) : list Z :=
  map (fun i => (a + Z.of_nat i)%Z) (seq 0 (Z.to_nat (b - a))).

Section Decorators.

Context {W : Type}.

(** What the interpreter supplies to [log_queries]: the clock and the text of
    objects interpolated into messages. *)
Record runtime : Type := Runtime {
  isoformat_now : W -> string;             (* datetime.now().isoformat() *)
  py_str : value -> string;                (* str(v), v a list or a connection *)
  py_repr_args : list value -> string      (* repr of the tuple args *)
}.

Definition str_of (rt : runtime) (v : value) : string :=
  match v with
  | VStr s => s
  | VNone => "None"
  | VInt n => pretty n
  | _ => py_str rt v
  end.

(** *** 0-log_queries.py *)

(** Lines 30-46: the value of the local [query] when logging starts. *)
Definition log_queries_query (rt : runtime) (func : pyfunc W)
    (args : list value) (kwargs : gmap string value) : value :=
  match kwargs !! "query" with
  | Some q => q
  | None =>
      match args with
      | [] => VNone
      | _ :: _ =>
          let params := fn_params func in
          match params with
          | [] => VNone
          | _ :: _ =>
              match py_index "query" params with
              | Some query_index =>
                  match args !! query_index with
                  | Some q => q
                  | None => VNone
                  end
              | None =>
                  VStr ("Query not found in standard position. Args: "
                        +:+ py_repr_args rt args)
              end
          end
      end
  end.

Definition clean_query (rt : runtime) (query : value) : string :=
  match query with
  | VStr s => py_join " " (py_split s)
  | _ => str_of rt query
  end.

Definition log_queries (rt : runtime) (func : pyfunc W) : pyfunc W :=
  wraps func (fun args kwargs w =>
    let query := log_queries_query rt func args kwargs in
    let timestamp := isoformat_now rt (w_env w) in
    let function_name := fn_name func in
    let stamp := "[" +:+ timestamp +:+ "] " in
    let w1 :=
      if truthy query then
        emit (EvLog INFO (stamp +:+ "Executing SQL in " +:+ function_name +:+ ": "
                          +:+ clean_query rt query)) w
      else
        emit (EvLog WARNING (stamp +:+ function_name
                             +:+ " called but no query parameter found")) w in
    let '(o, w2) := fn_call func args kwargs w1 in
    match o with
    | Return result =>
        (Return result,
         emit (EvLog INFO (stamp +:+ "Query in " +:+ function_name
                           +:+ " completed successfully")) w2)
    | Raise e =>
        if isinstance_sqlite_Error e then
          (Raise e,
           emit (EvLog ERROR (stamp +:+ "Failed query: " +:+ str_of rt query))
             (emit (EvLog ERROR (stamp +:+ "Database error in " +:+ function_name
                                 +:+ ": " +:+ exn_str e)) w2))
        else if isinstance_Exception e then
          (Raise e,
           emit (EvLog ERROR (stamp +:+ "Failed query: " +:+ str_of rt query))
             (emit (EvLog ERROR (stamp +:+ "Unexpected error in " +:+ function_name
                                 +:+ ": " +:+ exn_str e)) w2))
        else (Raise e, w2)
    end).

(** *** 1-with_db_connection.py *)

Definition with_db_connection (func : pyfunc W) : pyfunc W :=
  wraps func (fun args kwargs w =>
    let '(conn, w1) := connect "users.db" w in
    let '(o, w2) := fn_call func (VConn conn :: args) kwargs w1 in
    (* finally: conn.close() *)
    (o, emit (EvClose conn) w2)).

(** *** 2-transactional.py *)

(** The body of [wrapper(conn, *args, **kwargs)]. *)
Definition transactional_wrapper (drv : driver W) (func : pyfunc W) (conn : value)
  : pyfun W :=
  fun args kwargs w =>
    let '(o, w1) := fn_call func (conn :: args) kwargs w in
    (* the try block: the call, then conn.commit() *)
    let '(o_try, w2) :=
      match o with
      | Return result =>
          match conn_method "commit" EvCommit (conn_commit drv) conn w1 with
          | (None, w') => (Return result, w')
          | (Some e, w') => (Raise e, w')
          end
      | Raise e => (Raise e, w1)
      end in
    match o_try with
    | Return result => (Return result, w2)
    | Raise e =>
        if isinstance_Exception e then
          match conn_method "rollback" EvRollback (conn_rollback drv) conn w2 with
          | (Some e', w3) => (Raise e', w3)
          | (None, w3) =>
              (Raise e, emit (EvPrint ("Transaction failed: " +:+ exn_str e)) w3)
          end
        else (Raise e, w2)
    end.

Definition transactional (drv : driver W) (func : pyfunc W) : pyfunc W :=
  wraps func (bind_conn (fn_qualname func) (transactional_wrapper drv func)).

(** The [except Exception as e] clause of the wrapper on a connection [c],
    reached with the exception [e] in the world [w]. *)
Definition transactional_except (drv : driver W) (c : nat) (e : exn) (w : world W)
  : outcome * world W :=
  if isinstance_Exception e then
    let rolled := conn_rollback drv c (w_env w) in
    let w3 := set_env rolled.2 (emit (EvRollback c) w) in
    match rolled.1 with
    | Some e' => (Raise e', w3)
    | None => (Raise e, emit (EvPrint ("Transaction failed: " +:+ exn_str e)) w3)
    end
  else (Raise e, w).

(** *** 3-retry_on_failure.py *)

(** [time.sleep(delay)]: [time_sleep] is the library function, which either
    sleeps or refuses the delay by raising ([ValueError] for a negative one,
    [OverflowError] or [OSError] for one the platform cannot represent). *)
Definition sleep (time_sleep : Z -> option exn) (delay : Z) (w : world W)
  : option exn * world W :=
  match time_sleep delay with
  | Some e => (Some e, w)
  | None => (None, emit (EvSleep delay) w)
  end.

(** The [for attempt in ...] loop over the attempts still to make. *)
Fixpoint retry_loop (time_sleep : Z -> option exn) (func : pyfunc W)
    (retries delay : Z) (attempts : list Z)
    (args : list value) (kwargs : gmap string value) (w : world W)
  : outcome * world W :=
  match attempts with
  | [] => (Return VNone, w)
  | attempt :: rest =>
      let '(o, w1) := fn_call func args kwargs w in
      match o with
      | Return result => (Return result, w1)
      | Raise e =>
          if isinstance_Exception e then
            let w2 := emit (EvPrint ("[Attempt " +:+ pretty attempt +:+ "] Error: "
                                     +:+ exn_str e)) w1 in
            if (attempt <? retries)%Z then
              let w3 := emit (EvPrint ("Retrying in " +:+ pretty delay
                                       +:+ " seconds...")) w2 in
              match sleep time_sleep delay w3 with
              | (Some e', w4) => (Raise e', w4)
              | (None, w4) =>
                  retry_loop time_sleep func retries delay rest args kwargs w4
              end
            else (Raise e, emit (EvPrint "All retry attempts failed.") w2)
          else (Raise e, w1)
      end
  end.

Definition retry_on_failure (time_sleep : Z -> option exn) (retries delay : Z)
    (func : pyfunc W) : pyfunc W :=
  wraps func (fun args kwargs w =>
    retry_loop time_sleep func retries delay (py_range 1 (retries + 1)) args kwargs w).

(** *** 4-cache_query.py *)

(** Line 35: [kwargs.get("query") or (args[0] if args else None)]. *)
Definition cache_query_query (args : list value) (kwargs : gmap string value) : value :=
  py_or (default VNone (kwargs !! "query"))
        (match args with a :: _ => a | [] => VNone end).

Definition missing_query : exn := ValueError "Missing SQL query for caching".

(** The body of [wrapper(conn, *args, **kwargs)]. *)
Definition cache_query_wrapper (func : pyfunc W) (conn : value) : pyfun W :=
  fun args kwargs w =>
    let query := cache_query_query args kwargs in
    if negb (truthy query) then (Raise missing_query, w)
    else
      match hash_key query with
      | None => (Raise (TypeError "unhashable type: 'list'"), w)
      | Some k =>
          match query_cache w !! k with
          | Some cached =>
              (Return cached, emit (EvPrint "[CACHE HIT] Returning cached result.") w)
          | None =>
              let w1 := emit (EvPrint "[CACHE MISS] Executing and caching result.") w in
              let '(o, w2) := fn_call func (conn :: args) kwargs w1 in
              match o with
              | Return result =>
                  (Return result, set_cache (<[k := result]> (query_cache w2)) w2)
              | Raise e => (Raise e, w2)
              end
          end
      end.

Definition cache_query (func : pyfunc W) : pyfunc W :=
  wraps func (bind_conn (fn_qualname func) (cache_query_wrapper func)).

End Decorators.

Arguments runtime : clear implicits.

(** ** Runs of a user function *)

Section Runs.

Context {W : Type}.

(** The environment after [n] successive invocations of [d] on the same
    arguments, starting from [u]. *)
Fixpoint env_after (d : pydef W) (args : list value) (kwargs : gmap string value)
    (n : nat) (u : W) : W :=
  match n with
  | O => u
  | S n' => env_after d args kwargs n' (def_body d args kwargs u).2
  end.

(** The outcome of invocation number [n + 1]. *)
Definition nth_outcome (d : pydef W) (args : list value) (kwargs : gmap string value)
    (n : nat) (u : W) : outcome :=
  (def_body d args kwargs (env_after d args kwargs n u)).1.

(** The attempts [a, a + 1, ..., a + k - 1]. *)
Fixpoint attempts_from (a : Z) (k : nat) : list Z :=
  match k with
  | O => []
  | S k' => a :: attempts_from (a + 1) k'
  end.

(** The events a call added to the trace [before]. *)
Definition new_events (before : world W) (after : world W) : list event :=
  drop (length (w_trace before)) (w_trace after).

(** Truthiness of the value a key stands for. *)
Definition key_truthy (k : key) : bool :=
  match k with
  | KNone => false
  | KInt n => negb (n =? 0)%Z
  | KStr EmptyString => false
  | KStr _ => true
  | KConn _ => true
  end.

(** Every key of the cache is truthy: the state of a cache that only
    [cache_query] has written to. *)
Definition cache_keys_truthy (w : world W) : Prop :=
  map_Forall (fun k _ => key_truthy k = true) (query_cache w).

(** The call passes the query string [q]: as the keyword argument [query],
    or, without that keyword, as the first positional argument. *)
Definition called_with (q : string) (args : list value) (kwargs : gmap string value)
  : Prop :=
  kwargs !! "query" = Some (VStr q) \/
  (kwargs !! "query" = None /\ head args = Some (VStr q)).

End Runs.

(** ** The specification's rules for locating the query *)

(** The query of a [log_queries] call as the specification words it: the
    keyword argument [query] when there is one, otherwise the positional
    argument at the index of the declared parameter named [query]. *)
Definition spec_log_queries_query (params : list string) (args : list value)
    (kwargs : gmap string value) : option value :=
  match kwargs !! "query" with
  | Some q => Some q
  | None =>
      match py_index "query" params with
      | Some i => args !! i
      | None => None
      end
  end.

(** The query of a [cache_query] call as the specification words it: the
    keyword argument [query] when there is one, otherwise the first
    positional argument. *)
Definition spec_cache_query_query (args : list value) (kwargs : gmap string value)
  : option value :=
  match kwargs !! "query" with
  | Some q => Some q
  | None => head args
  end.

(** ** Sample functions and worlds *)

Definition KeyboardInterrupt : exn := Exn BaseOnly "KeyboardInterrupt" EmptyString.

Definition OperationalError (msg : string) : exn := Exn SqliteError "OperationalError" msg.

(** [def always_raises( *args, **kwargs): raise e]; the environment counts
    the invocations. *)
Definition always_raises (e : exn) : pydef nat :=
  PyDef "always_raises" "always_raises" ["args"; "kwargs"] (fun _ _ n => (Raise e, S n)).

(** [def flaky( *args, **kwargs)]: fails with [e] on its first [k]
    invocations and returns [v] afterwards. *)
Definition flaky (e : exn) (k : nat) (v : value) : pydef nat :=
  PyDef "flaky" "flaky" ["args"; "kwargs"]
    (fun _ _ n => if (n <? k)%nat then (Raise e, S n) else (Return v, S n)).

(** [def run_statement( *args, **kwargs)]: answers [rows] to any call. *)
Definition run_statement (rows : value) : pydef nat :=
  PyDef "run_statement" "run_statement" ["args"; "kwargs"] (fun _ _ n => (Return rows, S n)).

(** [def fetch_users_with_cache(conn, query)] of 4-cache_query.py on a
    database whose answer is [rows]; a call that does not bind both
    parameters exactly once is a [TypeError]. *)
Definition fetch_users_with_cache (rows : value) : pydef nat :=
  PyDef "fetch_users_with_cache" "fetch_users_with_cache" ["conn"; "query"]
    (fun args kwargs n =>
       let bound :=
         match args with
         | [] => (size kwargs =? 2)%nat && bool_decide (is_Some (kwargs !! "conn"))
                 && bool_decide (is_Some (kwargs !! "query"))
         | [_] => (size kwargs =? 1)%nat && bool_decide (is_Some (kwargs !! "query"))
         | [_; _] => (size kwargs =? 0)%nat
         | _ => false
         end in
       if bound then (Return rows, S n)
       else (Raise (TypeError "fetch_users_with_cache() got unexpected arguments"), n)).

(** A database on which commits and rollbacks succeed; the environment
    only counts invocations, which they leave alone. *)
Definition sample_driver : driver nat :=
  Driver (fun _ n => (None, n)) (fun _ n => (None, n)).

Definition ProgrammingError (msg : string) : exn := Exn SqliteError "ProgrammingError" msg.

(** Connections that were closed: commit and rollback raise. *)
Definition closed_driver : driver nat :=
  Driver (fun _ n => (Some (ProgrammingError "Cannot operate on a closed database."), n))
         (fun _ n => (Some (ProgrammingError "Cannot operate on a closed database."), n)).

(** The longest sleep, in seconds, the sample platform accepts (which long
    delays a platform accepts varies; the samples sleep one second). *)
Definition sample_sleep_limit : Z := 86400.

(** The [time.sleep] of the sample platform: a delay below the range of the
    C time type or above the limit is an [OverflowError], another negative
    delay a [ValueError], and the other delays are slept. *)
Definition sample_time_sleep (delay : Z) : option exn :=
  if (delay <? -9223372036)%Z || (sample_sleep_limit <? delay)%Z then
    Some (Exn StdException "OverflowError"
            "timestamp too large to convert to C _PyTime_t")
  else if (delay <? 0)%Z then Some (ValueError "sleep length must be non-negative")
  else None.

Definition world0 : world nat := World 0%nat [] ∅ 0%nat.

Definition sample_runtime : runtime nat :=
  Runtime (fun _ => "2024-01-01T00:00:00") (fun _ => "<object>") (fun _ => "(...)").

Definition sample_rows : value := VList [VList [VInt 1; VStr "Alice Johnson"]].

(** A world whose cache already holds the answer to one statement. *)
Definition warm_world : world nat :=
  World 1%nat [] {[ KStr "SELECT * FROM users" := sample_rows ]} 1%nat.

(** ** Stacks of decorators, sequences of calls, and what traces show *)

Definition is_print (ev : event) : bool :=
  match ev with EvPrint _ => true | _ => false end.

Definition is_sleep (ev : event) : bool :=
  match ev with EvSleep _ => true | _ => false end.

(** The event opens, respectively closes, the connection [c]. *)
Definition opens (c : nat) (ev : event) : bool :=
  match ev with EvConnect _ c' => bool_decide (c' = c) | _ => false end.

Definition closes (c : nat) (ev : event) : bool :=
  match ev with EvClose c' => bool_decide (c' = c) | _ => false end.

(** How many times [c] was opened, minus how many times it was closed. *)
Definition balance (c : nat) (t : list event) : Z :=
  (Z.of_nat (count_events (opens c) t) - Z.of_nat (count_events (closes c) t))%Z.

(** A string without whitespace, and a word: such a string that is not
    empty. *)
Fixpoint spaceless (s : string) : bool :=
  match s with
  | EmptyString => true
  | String a s' => negb (is_space a) && spaceless s'
  end.

Definition is_word (s : string) : bool :=
  match s with
  | EmptyString => false
  | String _ _ => spaceless s
  end.

(** A string of whitespace only. *)
Fixpoint blank (s : string) : bool :=
  match s with
  | EmptyString => true
  | String a s' => is_space a && blank s'
  end.

(** The events other than prints. *)
Definition without_prints (evs : list event) : list event :=
  filter (fun ev => is_print ev = false) evs.

(** [n] calls with a pause between each two: call, pause, call, ..., call. *)
Fixpoint interleaved (call pause : event) (n : nat) : list event :=
  match n with
  | O => []
  | S m =>
      call :: match m with
              | O => []
              | S _ => pause :: interleaved call pause m
              end
  end.

Section Stacks.

Context {W : Type}.

(** A stack of the five decorators, applied to a callable. *)
Inductive decorated : Type :=
| Plain
| LogQueries (rt : runtime W) (f : decorated)
| WithDbConnection (f : decorated)
| Transactional (drv : driver W) (f : decorated)
| RetryOnFailure (time_sleep : Z -> option exn) (retries delay : Z) (f : decorated)
| CacheQuery (f : decorated).

Fixpoint decorate (s : decorated) (func : pyfunc W) : pyfunc W :=
  match s with
  | Plain => func
  | LogQueries rt f => log_queries rt (decorate f func)
  | WithDbConnection f => with_db_connection (decorate f func)
  | Transactional drv f => transactional drv (decorate f func)
  | RetryOnFailure time_sleep retries delay f =>
      retry_on_failure time_sleep retries delay (decorate f func)
  | CacheQuery f => cache_query (decorate f func)
  end.

(** One call of a cached function: which function, and with what. *)
Record cached_call : Type := CachedCall {
  call_def : pydef W;
  call_conn : value;
  call_args : list value;
  call_kwargs : gmap string value
}.

(** The world after a sequence of calls of cached functions, whatever their
    outcomes: all of them share the one [query_cache]. *)
Fixpoint after_calls (calls : list cached_call) (w : world W) : world W :=
  match calls with
  | [] => w
  | c :: rest =>
      after_calls rest
        (cache_query_wrapper (define (call_def c)) (call_conn c)
           (call_args c) (call_kwargs c) w).2
  end.

(** A callable that leaves the balance of every connection as it finds
    it. *)
Definition keeps_connections (func : pyfunc W) : Prop :=
  forall (c : nat) (args : list value) (kwargs : gmap string value) (w : world W),
    balance c (w_trace (fn_call func args kwargs w).2) = balance c (w_trace w).

End Stacks.

Arguments decorated : clear implicits.
Arguments cached_call : clear implicits.

(** [def fails_then_interrupted( *args, **kwargs)]: fails with [e] on its
    first [k] invocations and is interrupted on the next ones. *)
Definition fails_then_interrupted (e : exn) (k : nat) : pydef nat :=
  PyDef "fails_then_interrupted" "fails_then_interrupted" ["args"; "kwargs"]
    (fun _ _ n => if (n <? k)%nat then (Raise e, S n) else (Raise KeyboardInterrupt, S n)).

(** Three calls of cached functions: two statements, the second one twice. *)
Definition sample_calls : list (cached_call nat) :=
  [CachedCall (run_statement sample_rows) (VConn 1) [VStr "SELECT name FROM users"] ∅;
   CachedCall (run_statement (VList [])) (VConn 2) []
     {[ "query" := VStr "SELECT * FROM orders" ]};
   CachedCall (run_statement sample_rows) (VConn 3) [VStr "SELECT * FROM orders"] ∅].

(** * Properties *)

Section Properties.

Context {W : Type}.

Implicit Types (w : world W) (d : pydef W) (func : pyfunc W).
Implicit Types (args : list value) (kwargs : gmap string value).

(** ** Traces *)

Lemma count_events_app (p : event -> bool) (t1 t2 : list event) :
  count_events p (t1 ++ t2) = (count_events p t1 + count_events p t2)%nat.
Proof. unfold count_events. by rewrite filter_app, length_app. Qed.

Lemma count_events_cons (p : event -> bool) (ev : event) (t : list event) :
  count_events p (ev :: t) = ((if p ev then 1 else 0) + count_events p t)%nat.
Proof. unfold count_events. cbn. destruct (p ev); by case_decide. Qed.

Lemma new_events_app w w' (evs : list event) :
  w_trace w' = w_trace w ++ evs -> new_events w w' = evs.
Proof. intros H. unfold new_events. by rewrite H, drop_app_length. Qed.

Lemma define_call d args kwargs w :
  fn_call (define d) args kwargs w =
  ((def_body d args kwargs (w_env w)).1,
   World (def_body d args kwargs (w_env w)).2
         (w_trace w ++ [EvCall (def_name d) args kwargs])
         (query_cache w) (w_next_conn w)).
Proof. cbn. by destruct (def_body d args kwargs (w_env w)). Qed.

(** ** with_db_connection *)

(** Around any callable, the wrapper's result is the inner result and the
    world is the inner call's world with the close appended. *)
Lemma with_db_connection_finally func args kwargs w :
  let c := w_next_conn w in
  let inner := fn_call func (VConn c :: args) kwargs (connect "users.db" w).2 in
  fn_call (with_db_connection func) args kwargs w = (inner.1, emit (EvClose c) inner.2).
Proof. cbn. by destruct (fn_call func _ _ _). Qed.

(** C2. For every user function [d] and all arguments, an invocation of the
    wrapper of [with_db_connection] opens exactly one connection (a fresh
    handle [c]), passes it as first argument, and closes that same handle
    exactly once, after the inner call and before its own return or
    re-raise: the events it adds are the connect, the inner call and the
    close, in this order, whether the inner call returns or raises; the
    outcome is the inner one. *)
Theorem with_db_connection_opens_and_closes_once d args kwargs w :
  let c := w_next_conn w in
  let inner := def_body d (VConn c :: args) kwargs (w_env w) in
  let r := fn_call (with_db_connection (define d)) args kwargs w in
  r.1 = inner.1 /\
  w_env r.2 = inner.2 /\
  new_events w r.2 =
    [EvConnect "users.db" c; EvCall (def_name d) (VConn c :: args) kwargs; EvClose c] /\
  count_events is_connect (new_events w r.2) = 1%nat /\
  count_events is_close (new_events w r.2) = 1%nat.
Proof.
  intros c inner r.
  assert (Hr : r = (inner.1,
                    World inner.2
                      (w_trace w ++ [EvConnect "users.db" c;
                                     EvCall (def_name d) (VConn c :: args) kwargs;
                                     EvClose c])
                      (query_cache w) (S c))).
  { subst r. rewrite with_db_connection_finally, define_call. cbn.
    unfold emit. cbn. by rewrite <- !app_assoc. }
  assert (Hn : new_events w r.2 =
               [EvConnect "users.db" c; EvCall (def_name d) (VConn c :: args) kwargs;
                EvClose c]).
  { apply new_events_app. by rewrite Hr. }
  rewrite Hn, Hr. repeat split; reflexivity.
Qed.

(** ** transactional *)

(** Around any callable and on a connection [c]: the commit is attempted
    after a normal return, and the [except] clause is entered with the
    exception of the call or of the commit. *)
Lemma transactional_wrapper_on_connection drv func (c : nat) args kwargs w :
  let inner := fn_call func (VConn c :: args) kwargs w in
  transactional_wrapper drv func (VConn c) args kwargs w =
  match inner.1 with
  | Return result =>
      let committed := conn_commit drv c (w_env inner.2) in
      let w' := set_env committed.2 (emit (EvCommit c) inner.2) in
      match committed.1 with
      | None => (Return result, w')
      | Some e => transactional_except drv c e w'
      end
  | Raise e => transactional_except drv c e inner.2
  end.
Proof.
  intros inner. unfold transactional_wrapper, transactional_except. fold inner.
  destruct inner as [[result|e] w1]; cbn [fst snd conn_method].
  - destruct (conn_commit drv c (w_env w1)) as [[e|] u]; cbn [fst snd]; [|done].
    destruct (isinstance_Exception e); [|done].
    by destruct (conn_rollback drv c _) as [[e'|] u'].
  - destruct (isinstance_Exception e); [|done].
    by destruct (conn_rollback drv c _) as [[e'|] u'].
Qed.

(** C1 (amended). For every user function [d] called through the wrapper of
    [transactional] on a connection [c].  When the inner call returns, the
    wrapper calls [conn.commit()], and when that returns it returns the same
    value.  When the inner call, or the commit, raises an instance of
    [Exception], the wrapper calls [conn.rollback()], and when that returns
    it prints a diagnostic and re-raises the same exception; an exception
    raised by the rollback itself propagates in its place.  An exception
    outside [Exception], from the inner call or from the commit, propagates
    unchanged with no rollback and no diagnostic.  The seven parts are the
    seven paths of the wrapper. *)
Theorem transactional_commits_or_rolls_back drv d (c : nat) args kwargs w :
  let inner := def_body d (VConn c :: args) kwargs (w_env w) in
  let r := transactional_wrapper drv (define d) (VConn c) args kwargs w in
  let call := EvCall (def_name d) (VConn c :: args) kwargs in
  let failed (e : exn) := EvPrint ("Transaction failed: " +:+ exn_str e) in
  (forall v u,
     inner.1 = Return v -> conn_commit drv c inner.2 = (None, u) ->
     r.1 = Return v /\ w_env r.2 = u /\
     new_events w r.2 = [call; EvCommit c]) /\
  (forall e u,
     inner.1 = Raise e -> isinstance_Exception e = true ->
     conn_rollback drv c inner.2 = (None, u) ->
     r.1 = Raise e /\ w_env r.2 = u /\
     new_events w r.2 = [call; EvRollback c; failed e]) /\
  (forall e,
     inner.1 = Raise e -> isinstance_Exception e = false ->
     r.1 = Raise e /\ w_env r.2 = inner.2 /\
     new_events w r.2 = [call]) /\
  (forall v e u u',
     inner.1 = Return v -> conn_commit drv c inner.2 = (Some e, u) ->
     isinstance_Exception e = true -> conn_rollback drv c u = (None, u') ->
     r.1 = Raise e /\ w_env r.2 = u' /\
     new_events w r.2 = [call; EvCommit c; EvRollback c; failed e]) /\
  (forall v e u,
     inner.1 = Return v -> conn_commit drv c inner.2 = (Some e, u) ->
     isinstance_Exception e = false ->
     r.1 = Raise e /\ w_env r.2 = u /\
     new_events w r.2 = [call; EvCommit c]) /\
  (forall e e' u,
     inner.1 = Raise e -> isinstance_Exception e = true ->
     conn_rollback drv c inner.2 = (Some e', u) ->
     r.1 = Raise e' /\ w_env r.2 = u /\
     new_events w r.2 = [call; EvRollback c]) /\
  (forall v e e' u u',
     inner.1 = Return v -> conn_commit drv c inner.2 = (Some e, u) ->
     isinstance_Exception e = true -> conn_rollback drv c u = (Some e', u') ->
     r.1 = Raise e' /\ w_env r.2 = u' /\
     new_events w r.2 = [call; EvCommit c; EvRollback c]).
Proof.
  intros inner r call failed. subst r.
  rewrite transactional_wrapper_on_connection, define_call.
  unfold transactional_except. cbn [fst snd w_env emit set_env w_trace].
  fold inner call.
  repeat split; intros;
    repeat first
      [ progress cbn [fst snd w_env emit set_env w_trace]
      | match goal with
        | H : _ = _ |- _ => rewrite H; clear H
        end ];
    try reflexivity;
    apply new_events_app; cbn [w_trace emit set_env];
    rewrite <- ?app_assoc; reflexivity.
Qed.

(** ** retry_on_failure *)

(** C9. With [retries = 0] the loop body never runs: whatever the callable,
    the arguments and the delay, the wrapper returns [None], raises nothing
    and leaves the world as it was, so the function is not invoked. *)
Theorem retry_on_failure_zero_retries (time_sleep : Z -> option exn) func (delay : Z)
    args kwargs w :
  fn_call (retry_on_failure time_sleep 0 delay func) args kwargs w = (Return VNone, w).
Proof. reflexivity. Qed.

(** ** log_queries *)

Lemma py_index_None (x : string) (l : list string) : py_index x l = None <-> x ∉ l.
Proof.
  induction l as [|y l IH]; cbn.
  - split; [intros _; apply not_elem_of_nil | done].
  - case_decide as Hxy.
    + subst. split; [done | intros H; destruct H; left].
    + rewrite not_elem_of_cons. destruct (py_index x l); cbn.
      * split; [done | intros [_ H]; by apply IH in H].
      * split; [intros _; split; [done | by apply IH] | done].
Qed.

(** What a call through [log_queries] does around a user function: one
    record before the call, at level INFO when the local [query] is truthy
    and WARNING otherwise, the call on the same arguments, then records
    only. *)
Lemma log_queries_call rt d args kwargs w :
  let inner := def_body d args kwargs (w_env w) in
  exists (msg : string) (after : list event),
    Forall (fun ev => is_log ev = true) after /\
    fn_call (log_queries rt (define d)) args kwargs w =
    (inner.1,
     World inner.2
       (w_trace w ++
        EvLog (if truthy (log_queries_query rt (define d) args kwargs)
               then INFO else WARNING) msg
        :: EvCall (def_name d) args kwargs :: after)
       (query_cache w) (w_next_conn w)).
Proof.
  intros inner. unfold log_queries, wraps. cbn [fn_call].
  destruct (truthy (log_queries_query rt (define d) args kwargs)) eqn:Ht;
    rewrite define_call; cbn [w_env emit]; fold inner;
    destruct inner as [[v|e] u]; cbn [fst snd];
    try (destruct (isinstance_sqlite_Error e); [|destruct (isinstance_Exception e)]);
    eexists; eexists; (split; [|unfold emit; cbn; rewrite <- ?app_assoc; cbn; reflexivity]);
    repeat constructor.
Qed.

(** C5. For every user function [d] and all arguments, calling it through
    [log_queries] gives the outcome of [d] itself on the same arguments (the
    same value, or the same exception), leaves the environment as [d] leaves
    it and the cache and connection allocator as they were, and adds nothing
    to the trace but log records around the one call of [d]. *)
Theorem log_queries_is_transparent rt d args kwargs w :
  let inner := def_body d args kwargs (w_env w) in
  let r := fn_call (log_queries rt (define d)) args kwargs w in
  r.1 = inner.1 /\
  w_env r.2 = inner.2 /\
  query_cache r.2 = query_cache w /\
  w_next_conn r.2 = w_next_conn w /\
  exists before after : list event,
    new_events w r.2 = before ++ EvCall (def_name d) args kwargs :: after /\
    Forall (fun ev => is_log ev = true) before /\
    Forall (fun ev => is_log ev = true) after.
Proof.
  intros inner r.
  destruct (log_queries_call rt d args kwargs w) as (msg & after & Hafter & Hr).
  fold inner r in Hr. rewrite Hr. cbn [fst snd w_env query_cache w_next_conn].
  do 4 (split; [reflexivity|]).
  eexists [_], after. split; [by apply new_events_app|].
  split; [repeat constructor | done].
Qed.

(** The complete trace of a call through [log_queries]. *)
Lemma log_queries_events rt d args kwargs w :
  let query := log_queries_query rt (define d) args kwargs in
  let stamp := "[" +:+ isoformat_now rt (w_env w) +:+ "] " in
  let inner := def_body d args kwargs (w_env w) in
  new_events w (fn_call (log_queries rt (define d)) args kwargs w).2 =
  (if truthy query
   then EvLog INFO (stamp +:+ "Executing SQL in " +:+ def_name d +:+ ": "
                    +:+ clean_query rt query)
   else EvLog WARNING (stamp +:+ def_name d +:+ " called but no query parameter found"))
  :: EvCall (def_name d) args kwargs
  :: match inner.1 with
     | Return _ =>
         [EvLog INFO (stamp +:+ "Query in " +:+ def_name d +:+ " completed successfully")]
     | Raise e =>
         if isinstance_sqlite_Error e then
           [EvLog ERROR (stamp +:+ "Database error in " +:+ def_name d +:+ ": " +:+ exn_str e);
            EvLog ERROR (stamp +:+ "Failed query: " +:+ str_of rt query)]
         else if isinstance_Exception e then
           [EvLog ERROR (stamp +:+ "Unexpected error in " +:+ def_name d +:+ ": " +:+ exn_str e);
            EvLog ERROR (stamp +:+ "Failed query: " +:+ str_of rt query)]
         else []
     end.
Proof.
  intros query stamp inner. apply new_events_app.
  unfold log_queries, wraps. cbn [fn_call]. fold query.
  destruct (truthy query); rewrite define_call; cbn [w_env emit fn_name define];
    fold inner stamp; destruct inner as [[v|e] u]; cbn [fst snd];
    try (destruct (isinstance_sqlite_Error e); [|destruct (isinstance_Exception e)]);
    cbn [snd emit w_trace]; rewrite <- ?app_assoc; reflexivity.
Qed.

(** C8 (amended). The local [query] of the wrapper is the argument the rule
    locates (keyword first, then the position of the declared parameter
    [query]) whenever the rule locates one.  When it locates none, the
    wrapper raises nothing of its own and, before calling the function,
    emits one record: the WARNING "<name> called but no query parameter
    found" when no positional argument was given, or the function declares
    no parameter at all, or declares one named [query]; and otherwise
    (positional arguments given to a function with parameters none of which
    is named [query]) an INFO record "Executing SQL in <name>: " followed by
    the whitespace-normalised placeholder "Query not found in standard
    position. Args: <args>", which is then the local [query]. *)
Theorem log_queries_warns_when_no_query rt d args kwargs w :
  let inner := def_body d args kwargs (w_env w) in
  let r := fn_call (log_queries rt (define d)) args kwargs w in
  let stamp := "[" +:+ isoformat_now rt (w_env w) +:+ "] " in
  let placeholder :=
    "Query not found in standard position. Args: " +:+ py_repr_args rt args in
  let warned := bool_decide (args = [] \/ def_params d = [] \/ "query" ∈ def_params d) in
  (forall q, spec_log_queries_query (def_params d) args kwargs = Some q ->
     log_queries_query rt (define d) args kwargs = q) /\
  (spec_log_queries_query (def_params d) args kwargs = None ->
   r.1 = inner.1 /\
   log_queries_query rt (define d) args kwargs
     = (if warned then VNone else VStr placeholder) /\
   exists after : list event,
     new_events w r.2 =
       (if warned
        then EvLog WARNING (stamp +:+ def_name d
                            +:+ " called but no query parameter found")
        else EvLog INFO (stamp +:+ "Executing SQL in " +:+ def_name d +:+ ": "
                         +:+ py_join " " (py_split placeholder)))
       :: EvCall (def_name d) args kwargs :: after /\
     Forall (fun ev => is_log ev = true) after).
Proof.
  intros inner r stamp placeholder warned.
  assert (Hq : forall q, spec_log_queries_query (def_params d) args kwargs = Some q ->
                         log_queries_query rt (define d) args kwargs = q).
  { intros q. unfold spec_log_queries_query, log_queries_query. cbn [fn_params define].
    destruct (kwargs !! "query") as [q'|]; [congruence|].
    destruct (py_index "query" (def_params d)) as [i|] eqn:Hi; [|done].
    destruct args as [|a args]; [done|].
    destruct (def_params d) as [|p ps]; [done|].
    intros ->. reflexivity. }
  split; [exact Hq|].
  intros Hnone.
  assert (Hquery : log_queries_query rt (define d) args kwargs
                   = (if warned then VNone else VStr placeholder)).
  { subst warned placeholder. revert Hnone.
    unfold spec_log_queries_query, log_queries_query. cbn [fn_params define].
    destruct (kwargs !! "query") as [q'|]; [done|].
    destruct args as [|a args].
    { intros _. rewrite bool_decide_eq_true_2; [done | by left]. }
    destruct (def_params d) as [|p ps] eqn:Hps.
    { intros _. rewrite bool_decide_eq_true_2; [done | right; by left]. }
    destruct (py_index "query" (p :: ps)) as [i|] eqn:Hi.
    - intros ->. rewrite bool_decide_eq_true_2; [done|].
      right; right. destruct (decide ("query" ∈ p :: ps)) as [|Hn]; [done|].
      apply py_index_None in Hn. congruence.
    - intros _. apply py_index_None in Hi.
      rewrite bool_decide_eq_false_2; [done|].
      intros [?|[?|?]]; done. }
  destruct (log_queries_call rt d args kwargs w) as (msg & after & Hafter & Hr).
  fold inner r in Hr.
  split; [by rewrite Hr|]. split; [exact Hquery|].
  pose proof (log_queries_events rt d args kwargs w) as Hev. cbv zeta in Hev.
  fold r inner stamp in Hev. rewrite Hquery in Hev.
  assert (Hlogs : forall query : value,
            Forall (fun ev => is_log ev = true)
              match inner.1 with
              | Return _ =>
                  [EvLog INFO (stamp +:+ "Query in " +:+ def_name d
                               +:+ " completed successfully")]
              | Raise e =>
                  if isinstance_sqlite_Error e then
                    [EvLog ERROR (stamp +:+ "Database error in " +:+ def_name d
                                  +:+ ": " +:+ exn_str e);
                     EvLog ERROR (stamp +:+ "Failed query: " +:+ str_of rt query)]
                  else if isinstance_Exception e then
                    [EvLog ERROR (stamp +:+ "Unexpected error in " +:+ def_name d
                                  +:+ ": " +:+ exn_str e);
                     EvLog ERROR (stamp +:+ "Failed query: " +:+ str_of rt query)]
                  else []
              end).
  { intros query. destruct inner.1 as [v|e]; [repeat constructor|].
    destruct (isinstance_sqlite_Error e); [repeat constructor|].
    destruct (isinstance_Exception e); repeat constructor. }
  rewrite Hev. destruct warned.
  - eexists. split; [reflexivity | apply Hlogs].
  - replace (truthy (VStr placeholder)) with true
      by (subst placeholder; by unfold String.append).
    eexists. split; [reflexivity | apply Hlogs].
Qed.

(** ** retry_on_failure: the loop *)

Lemma py_range_from (a : Z) (s k : nat) :
  map (fun i => (a + Z.of_nat i)%Z) (seq s k) = attempts_from (a + Z.of_nat s) k.
Proof.
  revert s. induction k as [|k IH]; intros s; cbn [seq map attempts_from]; [done|].
  f_equal. rewrite IH. f_equal. lia.
Qed.

Lemma py_range_attempts (retries : Z) :
  py_range 1 (retries + 1) = attempts_from 1 (Z.to_nat retries).
Proof.
  unfold py_range. rewrite py_range_from. f_equal. lia.
Qed.

(** While the invocations fail with instances of [Exception], attempts
    remain and [time.sleep] accepts the delay, the loop goes on: after [j]
    such failures it is at attempt [a + j], the function has been entered
    [j] times and the environment is the one [j] invocations leave. *)
Lemma retry_loop_failures (time_sleep : Z -> option exn) d (retries delay : Z)
    args kwargs :
  forall (j : nat) (a : Z) (n : nat) w,
    (a + Z.of_nat j <= retries)%Z ->
    (j <= n)%nat ->
    ((0 < j)%nat -> time_sleep delay = None) ->
    (forall i, (i < j)%nat ->
       exists e, nth_outcome d args kwargs i (w_env w) = Raise e /\
                 isinstance_Exception e = true) ->
    exists (w' : world W) (evs : list event),
      retry_loop time_sleep (define d) retries delay (attempts_from a n) args kwargs w =
      retry_loop time_sleep (define d) retries delay
        (attempts_from (a + Z.of_nat j) (n - j)) args kwargs w' /\
      w_env w' = env_after d args kwargs j (w_env w) /\
      w_trace w' = w_trace w ++ evs /\
      count_events is_call evs = j.
Proof.
  induction j as [|j IH]; intros a n w Ha Hn Hdelay Hfail.
  - exists w, []. rewrite Z.add_0_r, Nat.sub_0_r, app_nil_r. done.
  - destruct n as [|n]; [lia|].
    destruct (Hfail 0%nat ltac:(lia)) as (e & He & Hexc).
    unfold nth_outcome in He. cbn [env_after] in He.
    cbn [attempts_from retry_loop]. rewrite define_call, He, Hexc.
    replace (a <? retries)%Z with true by lia.
    unfold sleep. rewrite (Hdelay ltac:(lia)).
    match goal with
    | |- context [retry_loop _ _ _ _ (attempts_from (a + 1) n) _ _ ?w4] =>
        destruct (IH (a + 1)%Z n w4) as (w' & evs & Hloop & Henv & Htrace & Hcount)
    end.
    + lia.
    + lia.
    + intros _. apply Hdelay. lia.
    + intros i Hi. destruct (Hfail (S i) ltac:(lia)) as (e' & He' & Hexc').
      exists e'. split; [exact He' | exact Hexc'].
    + exists w', ([EvCall (def_name d) args kwargs;
                   EvPrint ("[Attempt " +:+ pretty a +:+ "] Error: " +:+ exn_str e);
                   EvPrint ("Retrying in " +:+ pretty delay +:+ " seconds...");
                   EvSleep delay] ++ evs).
      split; [|split; [|split]].
      * rewrite Hloop. cbn [Nat.sub].
        by replace (a + Z.of_nat (S j))%Z with (a + 1 + Z.of_nat j)%Z by lia.
      * rewrite Henv. reflexivity.
      * rewrite Htrace. cbn. rewrite <- !app_assoc. reflexivity.
      * rewrite count_events_app, Hcount. reflexivity.
Qed.

(** C3 (amended). For every user function [d] that raises an instance of
    [Exception] on every invocation, every attempt count [retries >= 1] and
    every delay that [time.sleep] accepts (any delay when [retries = 1]),
    the wrapper of [retry_on_failure] invokes [d] exactly [retries] times
    and then raises the exception of the last invocation, unchanged. *)
Theorem retry_on_failure_exhaustion (time_sleep : Z -> option exn) d
    (retries delay : Z) args kwargs w :
  (1 <= retries)%Z ->
  ((1 < retries)%Z -> time_sleep delay = None) ->
  (forall u, exists e, (def_body d args kwargs u).1 = Raise e /\
                       isinstance_Exception e = true) ->
  let r := fn_call (retry_on_failure time_sleep retries delay (define d)) args kwargs w in
  (exists e, r.1 = Raise e /\
             nth_outcome d args kwargs (Z.to_nat retries - 1) (w_env w) = Raise e) /\
  w_env r.2 = env_after d args kwargs (Z.to_nat retries) (w_env w) /\
  count_events is_call (new_events w r.2) = Z.to_nat retries.
Proof.
  intros Hretries Hdelay Hfails r. subst r.
  unfold retry_on_failure, wraps. cbn [fn_call].
  rewrite py_range_attempts.
  destruct (retry_loop_failures time_sleep d retries delay args kwargs
              (Z.to_nat retries - 1) 1 (Z.to_nat retries) w)
    as (w' & evs & Hloop & Henv & Htrace & Hcount);
    [lia | lia | intros; apply Hdelay; lia | |].
  { intros i _. apply Hfails. }
  rewrite Hloop.
  replace (Z.to_nat retries - (Z.to_nat retries - 1))%nat with 1%nat by lia.
  destruct (Hfails (w_env w')) as (e & He & Hexc).
  cbn [attempts_from retry_loop]. rewrite define_call, He, Hexc.
  replace (1 + Z.of_nat (Z.to_nat retries - 1) <? retries)%Z with false
    by (symmetry; apply Z.ltb_ge; lia).
  cbn [fst snd emit w_env w_trace].
  split; [|split].
  - exists e. split; [done|]. unfold nth_outcome. by rewrite <- Henv.
  - replace (Z.to_nat retries) with (S (Z.to_nat retries - 1)) at 1 by lia.
    rewrite Henv. clear. generalize (Z.to_nat retries - 1)%nat (w_env w).
    induction n as [|n IHn]; intros u; cbn [env_after]; [done | by rewrite IHn].
  - erewrite new_events_app;
      [|unfold emit; cbn [w_trace]; rewrite Htrace, <- !app_assoc; reflexivity].
    cbn [app]. rewrite count_events_app, Hcount, !count_events_cons. cbn. lia.
Qed.

(** C7 (amended). For every user function [d] whose first [k] invocations
    raise instances of [Exception] and whose next invocation returns [v],
    every attempt count [retries > k] and every delay that [time.sleep]
    accepts (any delay when [k = 0]), the wrapper of [retry_on_failure]
    returns [v] and invokes [d] exactly [k + 1] times. *)
Theorem retry_on_failure_recovery (time_sleep : Z -> option exn) d
    (retries delay : Z) (k : nat) (v : value) args kwargs w :
  (Z.of_nat k < retries)%Z ->
  ((0 < k)%nat -> time_sleep delay = None) ->
  (forall i, (i < k)%nat ->
     exists e, nth_outcome d args kwargs i (w_env w) = Raise e /\
               isinstance_Exception e = true) ->
  nth_outcome d args kwargs k (w_env w) = Return v ->
  let r := fn_call (retry_on_failure time_sleep retries delay (define d)) args kwargs w in
  r.1 = Return v /\
  w_env r.2 = env_after d args kwargs (S k) (w_env w) /\
  count_events is_call (new_events w r.2) = S k.
Proof.
  intros Hk Hdelay Hfail Hok r. subst r.
  unfold retry_on_failure, wraps. cbn [fn_call].
  rewrite py_range_attempts.
  destruct (retry_loop_failures time_sleep d retries delay args kwargs k 1
              (Z.to_nat retries) w)
    as (w' & evs & Hloop & Henv & Htrace & Hcount); [lia | lia | done | done |].
  rewrite Hloop.
  destruct (Z.to_nat retries - k)%nat as [|m] eqn:Hm; [lia|].
  unfold nth_outcome in Hok. rewrite <- Henv in Hok.
  cbn [attempts_from retry_loop]. rewrite define_call, Hok.
  cbn [fst snd w_env w_trace].
  split; [done|]. split.
  - rewrite Henv. clear. generalize (w_env w).
    induction k as [|k IHk]; intros u; cbn [env_after]; [done | by rewrite IHk].
  - erewrite new_events_app;
      [|unfold emit; cbn [w_trace]; rewrite Htrace, <- !app_assoc; reflexivity].
    cbn [app]. rewrite count_events_app, Hcount, !count_events_cons. cbn. lia.
Qed.

(** ** cache_query *)

Lemma hash_key_truthy (v : value) (k : key) :
  hash_key v = Some k -> key_truthy k = truthy v.
Proof. destruct v; cbn; intros [= <-]; reflexivity. Qed.

Lemma called_with_query (q : string) args kwargs :
  called_with q args kwargs -> q <> EmptyString ->
  cache_query_query args kwargs = VStr q.
Proof.
  unfold called_with, cache_query_query, py_or.
  intros [Hkw | [Hkw Hpos]] Hq.
  - rewrite Hkw. cbn. by destruct q.
  - rewrite Hkw. cbn. by destruct args as [|a args]; simplify_eq/=.
Qed.

(** The four paths of the wrapper around a user function. *)

Lemma cache_query_falsy d conn args kwargs w :
  truthy (cache_query_query args kwargs) = false ->
  cache_query_wrapper (define d) conn args kwargs w = (Raise missing_query, w).
Proof. intros H. unfold cache_query_wrapper. by rewrite H. Qed.

Lemma cache_query_unhashable d conn args kwargs w :
  truthy (cache_query_query args kwargs) = true ->
  hash_key (cache_query_query args kwargs) = None ->
  cache_query_wrapper (define d) conn args kwargs w =
  (Raise (TypeError "unhashable type: 'list'"), w).
Proof. intros H1 H2. unfold cache_query_wrapper. by rewrite H1, H2. Qed.

Lemma cache_query_cached d conn args kwargs w (k : key) (cached : value) :
  truthy (cache_query_query args kwargs) = true ->
  hash_key (cache_query_query args kwargs) = Some k ->
  query_cache w !! k = Some cached ->
  cache_query_wrapper (define d) conn args kwargs w =
  (Return cached, emit (EvPrint "[CACHE HIT] Returning cached result.") w).
Proof. intros H1 H2 H3. unfold cache_query_wrapper. by rewrite H1, H2, H3. Qed.

Lemma cache_query_miss d conn args kwargs w (k : key) :
  truthy (cache_query_query args kwargs) = true ->
  hash_key (cache_query_query args kwargs) = Some k ->
  query_cache w !! k = None ->
  let inner := def_body d (conn :: args) kwargs (w_env w) in
  cache_query_wrapper (define d) conn args kwargs w =
  (inner.1,
   World inner.2
     (w_trace w ++ [EvPrint "[CACHE MISS] Executing and caching result.";
                    EvCall (def_name d) (conn :: args) kwargs])
     (match inner.1 with
      | Return result => <[k := result]> (query_cache w)
      | Raise _ => query_cache w
      end)
     (w_next_conn w)).
Proof.
  intros H1 H2 H3 inner. unfold cache_query_wrapper.
  rewrite H1, H2, H3. cbn [negb]. rewrite define_call.
  cbn [emit w_env w_trace query_cache w_next_conn]. fold inner.
  destruct inner as [[result|e] u]; cbn; by rewrite <- app_assoc.
Qed.

(** Only truthy keys are ever stored. *)
Lemma cache_query_keeps_keys_truthy d conn args kwargs w :
  cache_keys_truthy w ->
  cache_keys_truthy (cache_query_wrapper (define d) conn args kwargs w).2.
Proof.
  intros Hinv. unfold cache_keys_truthy in *.
  destruct (truthy (cache_query_query args kwargs)) eqn:Ht;
    [|by rewrite cache_query_falsy].
  destruct (hash_key (cache_query_query args kwargs)) as [k|] eqn:Hk;
    [|by rewrite cache_query_unhashable].
  destruct (query_cache w !! k) as [cached|] eqn:Hc.
  - by erewrite cache_query_cached.
  - erewrite cache_query_miss by done. cbn [snd query_cache].
    destruct (def_body d (conn :: args) kwargs (w_env w)).1; [|done].
    apply map_Forall_insert_2; [|done].
    by rewrite (hash_key_truthy _ _ Hk).
Qed.

(** C4. On a cache that holds only what the wrapper stored (truthy keys), a
    call passing a query string [q] already present returns the stored
    result for [q] and does nothing else than print the hit: the function is
    not invoked and the connection is not used.  And whenever a call returns
    normally, the same call again (on any connection) returns the same
    result from the cache without invoking the function.  Of two calls with
    the same non-empty query string not yet cached, on which the function
    returns, the first invokes the function, exactly once and on the
    connection and arguments of the call, and returns and stores what it
    returned; the second returns the same result and adds no invocation. *)
Theorem cache_query_returns_cached_result d conn args kwargs w :
  (forall (q : string) (cached : value),
     cache_keys_truthy w ->
     called_with q args kwargs ->
     query_cache w !! KStr q = Some cached ->
     cache_query_wrapper (define d) conn args kwargs w =
     (Return cached, emit (EvPrint "[CACHE HIT] Returning cached result.") w)) /\
  (forall (v : value) (w1 : world W) (conn' : value),
     cache_query_wrapper (define d) conn args kwargs w = (Return v, w1) ->
     cache_query_wrapper (define d) conn' args kwargs w1 =
     (Return v, emit (EvPrint "[CACHE HIT] Returning cached result.") w1)) /\
  (forall (q : string) (v : value) (conn' : value),
     q <> EmptyString ->
     called_with q args kwargs ->
     query_cache w !! KStr q = None ->
     (def_body d (conn :: args) kwargs (w_env w)).1 = Return v ->
     let first := cache_query_wrapper (define d) conn args kwargs w in
     let second := cache_query_wrapper (define d) conn' args kwargs first.2 in
     first.1 = Return v /\
     w_env first.2 = (def_body d (conn :: args) kwargs (w_env w)).2 /\
     query_cache first.2 = <[KStr q := v]> (query_cache w) /\
     new_events w first.2 =
       [EvPrint "[CACHE MISS] Executing and caching result.";
        EvCall (def_name d) (conn :: args) kwargs] /\
     second.1 = Return v /\
     new_events first.2 second.2 = [EvPrint "[CACHE HIT] Returning cached result."] /\
     w_env second.2 = w_env first.2 /\
     count_events is_call (new_events w second.2) = 1%nat).
Proof.
  split; [|split].
  3:{ intros q v conn' Hq Hcall Hmiss Hret first second.
      pose proof (called_with_query q args kwargs Hcall Hq) as Hquery.
      assert (Ht : truthy (cache_query_query args kwargs) = true)
        by (rewrite Hquery; by destruct q).
      assert (Hk : hash_key (cache_query_query args kwargs) = Some (KStr q))
        by (by rewrite Hquery).
      assert (Hfirst : first =
                ((def_body d (conn :: args) kwargs (w_env w)).1,
                 World (def_body d (conn :: args) kwargs (w_env w)).2
                   (w_trace w ++ [EvPrint "[CACHE MISS] Executing and caching result.";
                                  EvCall (def_name d) (conn :: args) kwargs])
                   (<[KStr q := v]> (query_cache w)) (w_next_conn w))).
      { subst first. erewrite cache_query_miss by done. by rewrite Hret. }
      assert (Hsecond : second =
                (Return v, emit (EvPrint "[CACHE HIT] Returning cached result.") first.2)).
      { subst second. apply (cache_query_cached d conn' args kwargs _ (KStr q));
          [done | done |]. rewrite Hfirst. cbn [snd query_cache].
        apply lookup_insert_eq. }
      rewrite Hsecond. cbn [fst snd emit w_env w_trace].
      rewrite Hfirst. cbn [fst snd w_env w_trace query_cache].
      split; [done|]. split; [done|]. split; [done|].
      split; [by apply new_events_app|]. split; [done|].
      split; [by apply new_events_app|]. split; [done|].
      erewrite new_events_app;
        [|unfold emit; cbn [w_trace]; rewrite <- app_assoc; reflexivity].
      cbn [app]. by rewrite !count_events_cons. }
  - intros q cached Hinv Hcall Hc.
    assert (Hq : q <> EmptyString).
    { intros ->. by apply Hinv in Hc. }
    pose proof (called_with_query q args kwargs Hcall Hq) as Hquery.
    apply (cache_query_cached d conn args kwargs w (KStr q));
      rewrite ?Hquery; [by destruct q | done | done].
  - intros v w1 conn' Hfirst.
    destruct (truthy (cache_query_query args kwargs)) eqn:Ht;
      [|by rewrite cache_query_falsy in Hfirst].
    destruct (hash_key (cache_query_query args kwargs)) as [k|] eqn:Hk;
      [|by rewrite cache_query_unhashable in Hfirst].
    apply (cache_query_cached d conn' args kwargs w1 k); [done..|].
    destruct (query_cache w !! k) as [cached|] eqn:Hc.
    + erewrite cache_query_cached in Hfirst by done.
      by injection Hfirst as <- <-.
    + erewrite cache_query_miss in Hfirst by done.
      injection Hfirst as Hv <-. cbn [query_cache]. rewrite Hv.
      apply lookup_insert_eq.
Qed.

(** C6 (amended). The query of a call is the keyword argument [query] when
    it is present and truthy, otherwise the first positional argument, if
    any.  The wrapper raises its input error ([ValueError]) without invoking
    the function exactly when this value is missing or falsy ([None], the
    empty string, zero, an empty list); nothing at all is done in that
    case. *)
Theorem cache_query_missing_query_error d conn args kwargs w :
  let r := cache_query_wrapper (define d) conn args kwargs w in
  cache_query_query args kwargs =
    match kwargs !! "query" with
    | Some q => if truthy q then q else default VNone (head args)
    | None => default VNone (head args)
    end /\
  (truthy (cache_query_query args kwargs) = false -> r = (Raise missing_query, w)) /\
  (r.1 = Raise missing_query /\ new_events w r.2 = [] ->
   truthy (cache_query_query args kwargs) = false).
Proof.
  intros r. split; [|split].
  - unfold cache_query_query, py_or.
    destruct (kwargs !! "query") as [q|]; cbn; by destruct args.
  - apply cache_query_falsy.
  - intros [Hraise Hnew]. subst r.
    destruct (truthy (cache_query_query args kwargs)) eqn:Ht; [exfalso|done].
    destruct (hash_key (cache_query_query args kwargs)) as [k|] eqn:Hk;
      [|by rewrite cache_query_unhashable in Hraise].
    destruct (query_cache w !! k) as [cached|] eqn:Hc.
    + by erewrite cache_query_cached in Hraise.
    + erewrite cache_query_miss in Hnew by done.
      unfold new_events in Hnew. cbn [snd w_trace] in Hnew.
      by rewrite drop_app_length in Hnew.
Qed.

(** C10. A call through the wrapper of [cache_query] changes the cache in
    one way only: on a miss on which the function returns, the key of the
    call's own query is added, mapped to the returned result.  On the
    missing-query error, on a hit (and when the function raises) the cache
    is left as it was; the entries of all other keys are never changed. *)
Theorem cache_query_touches_own_entry_only d conn args kwargs w :
  let query := cache_query_query args kwargs in
  let inner := def_body d (conn :: args) kwargs (w_env w) in
  let r := cache_query_wrapper (define d) conn args kwargs w in
  (truthy query = false -> query_cache r.2 = query_cache w) /\
  (forall k, hash_key query = Some k -> is_Some (query_cache w !! k) ->
     query_cache r.2 = query_cache w) /\
  (forall k result,
     truthy query = true -> hash_key query = Some k -> query_cache w !! k = None ->
     inner.1 = Return result ->
     query_cache r.2 = <[k := result]> (query_cache w)) /\
  (forall k e,
     truthy query = true -> hash_key query = Some k -> query_cache w !! k = None ->
     inner.1 = Raise e ->
     query_cache r.2 = query_cache w) /\
  (forall k', hash_key query <> Some k' -> query_cache r.2 !! k' = query_cache w !! k').
Proof.
  intros query inner r. subst query r.
  destruct (truthy (cache_query_query args kwargs)) eqn:Ht;
    [|rewrite cache_query_falsy by done; repeat split; intros; done].
  destruct (hash_key (cache_query_query args kwargs)) as [k|] eqn:Hk;
    [|rewrite cache_query_unhashable by done; repeat split; intros; done].
  destruct (query_cache w !! k) as [cached|] eqn:Hc.
  - erewrite cache_query_cached by done. cbn [snd emit query_cache].
    repeat split; intros; by simplify_eq.
  - erewrite cache_query_miss by done. fold inner. cbn [snd query_cache].
    split; [done|]. split.
    { intros k0 [= <-] [x Hx]. congruence. }
    split.
    { intros k0 result _ [= <-] _ Hres. by rewrite Hres. }
    split.
    { intros k0 e _ [= <-] _ Hres. by rewrite Hres. }
    intros k' Hk'. destruct inner.1; [|done].
    apply lookup_insert_ne. congruence.
Qed.

(** ** Calls of the decorated functions *)

(** A call that passes the connection first and no keyword [conn] runs the
    wrapper body on it. *)
Lemma transactional_positional drv func (conn : value) args kwargs w :
  kwargs !! "conn" = None ->
  fn_call (transactional drv func) (conn :: args) kwargs w =
  transactional_wrapper drv func conn args kwargs w.
Proof. intros H. cbn. unfold bind_conn. by rewrite H. Qed.

Lemma cache_query_positional func (conn : value) args kwargs w :
  kwargs !! "conn" = None ->
  fn_call (cache_query func) (conn :: args) kwargs w =
  cache_query_wrapper func conn args kwargs w.
Proof. intros H. cbn. unfold bind_conn. by rewrite H. Qed.

(** The cache of a fresh module, [query_cache = {}], has only truthy keys. *)
Lemma cache_keys_truthy_initial (u : W) (t : list event) (n : nat) :
  cache_keys_truthy (World u t ∅ n).
Proof. apply map_Forall_empty. Qed.

End Properties.

(** * The statements at concrete calls *)

(** ** transactional *)

(** C1, as stated, fails.  A function interrupted by [KeyboardInterrupt]
    raises, and the wrapper lets the exception through without any rollback
    ([except Exception] does not catch it).  And on a connection that was
    closed, a function that returns normally does not get its result
    returned: the commit raises inside the [try], the rollback is attempted
    and raises in turn. *)
Lemma transactional_no_rollback_on_interrupt :
  ((def_body (always_raises KeyboardInterrupt) [VConn 0] ∅ 0%nat).1
     = Raise KeyboardInterrupt /\
   (transactional_wrapper sample_driver (define (always_raises KeyboardInterrupt))
      (VConn 0) [] ∅ world0).1 = Raise KeyboardInterrupt /\
   w_trace (transactional_wrapper sample_driver
              (define (always_raises KeyboardInterrupt)) (VConn 0) [] ∅ world0).2
     = [EvCall "always_raises" [VConn 0] ∅] /\
   count_events is_rollback
     (w_trace (transactional_wrapper sample_driver
                 (define (always_raises KeyboardInterrupt)) (VConn 0) [] ∅ world0).2)
     = 0%nat) /\
  ((def_body (run_statement sample_rows) [VConn 0] ∅ 0%nat).1 = Return sample_rows /\
   (transactional_wrapper closed_driver (define (run_statement sample_rows))
      (VConn 0) [] ∅ world0).1
     = Raise (ProgrammingError "Cannot operate on a closed database.") /\
   w_trace (transactional_wrapper closed_driver (define (run_statement sample_rows))
              (VConn 0) [] ∅ world0).2
     = [EvCall "run_statement" [VConn 0] ∅; EvCommit 0; EvRollback 0]).
Proof. repeat split; reflexivity. Qed.

(** A failing statement is rolled back and its error re-raised. *)
Lemma transactional_rolls_back_database_error :
  let r := transactional_wrapper sample_driver
             (define (always_raises (OperationalError "no such table: users")))
             (VConn 0) [] ∅ world0 in
  r.1 = Raise (OperationalError "no such table: users") /\
  w_env r.2 = 1%nat /\
  new_events world0 r.2 =
    [EvCall "always_raises" [VConn 0] ∅; EvRollback 0;
     EvPrint "Transaction failed: no such table: users"].
Proof.
  apply (proj1 (proj2 (transactional_commits_or_rolls_back sample_driver
                         (always_raises (OperationalError "no such table: users"))
                         0%nat [] ∅ world0))
           (OperationalError "no such table: users") 1%nat);
    reflexivity.
Defined.

(** ** retry_on_failure *)

(** C3, as stated, fails in two ways.  A function that raises
    [KeyboardInterrupt] on every invocation is invoked once, not three
    times; and with a negative delay the wrapper stops after the first
    failure with the [ValueError] of [time.sleep], not with the function's
    exception. *)
Lemma retry_exhaustion_fails_as_stated :
  ((forall n : nat,
      (def_body (always_raises KeyboardInterrupt) [VConn 0] ∅ n).1
        = Raise KeyboardInterrupt) /\
   count_events is_call
     (w_trace (fn_call (retry_on_failure sample_time_sleep 3 1 (define (always_raises KeyboardInterrupt)))
                 [VConn 0] ∅ world0).2) = 1%nat) /\
  ((forall n : nat,
      (def_body (always_raises (OperationalError "database is locked")) [VConn 0] ∅ n).1
        = Raise (OperationalError "database is locked")) /\
   (fn_call (retry_on_failure sample_time_sleep 3 (-1)
               (define (always_raises (OperationalError "database is locked"))))
      [VConn 0] ∅ world0).1
     = Raise (ValueError "sleep length must be non-negative") /\
   count_events is_call
     (w_trace (fn_call (retry_on_failure sample_time_sleep 3 (-1)
                          (define (always_raises (OperationalError "database is locked"))))
                 [VConn 0] ∅ world0).2) = 1%nat).
Proof. repeat split; reflexivity. Qed.

Lemma retry_exhaustion_three_attempts :
  let d := always_raises (OperationalError "database is locked") in
  let r := fn_call (retry_on_failure sample_time_sleep 3 1 (define d)) [VConn 0] ∅ world0 in
  (exists e, r.1 = Raise e /\ nth_outcome d [VConn 0] ∅ 2 0%nat = Raise e) /\
  w_env r.2 = 3%nat /\
  count_events is_call (new_events world0 r.2) = 3%nat.
Proof.
  apply (retry_on_failure_exhaustion sample_time_sleep
           (always_raises (OperationalError "database is locked")) 3 1
           [VConn 0] ∅ world0).
  - lia.
  - reflexivity.
  - intros u. eexists. split; reflexivity.
Defined.

(** C7, as stated, fails in the same two ways: a first failure by
    [KeyboardInterrupt] is not retried, and a negative delay turns the first
    failure into the [ValueError] of [time.sleep]; in both runs the function
    would have returned on its second invocation. *)
Lemma retry_recovery_fails_as_stated :
  (nth_outcome (flaky KeyboardInterrupt 1 sample_rows) [VConn 0] ∅ 0 0%nat
     = Raise KeyboardInterrupt /\
   nth_outcome (flaky KeyboardInterrupt 1 sample_rows) [VConn 0] ∅ 1 0%nat
     = Return sample_rows /\
   (fn_call (retry_on_failure sample_time_sleep 3 1 (define (flaky KeyboardInterrupt 1 sample_rows)))
      [VConn 0] ∅ world0).1 = Raise KeyboardInterrupt) /\
  (nth_outcome (flaky (OperationalError "database is locked") 1 sample_rows)
     [VConn 0] ∅ 0 0%nat = Raise (OperationalError "database is locked") /\
   nth_outcome (flaky (OperationalError "database is locked") 1 sample_rows)
     [VConn 0] ∅ 1 0%nat = Return sample_rows /\
   (fn_call (retry_on_failure sample_time_sleep 3 (-1)
               (define (flaky (OperationalError "database is locked") 1 sample_rows)))
      [VConn 0] ∅ world0).1
     = Raise (ValueError "sleep length must be non-negative")).
Proof. repeat split; reflexivity. Qed.

Lemma retry_recovery_after_two_failures :
  let d := flaky (OperationalError "database is locked") 2 sample_rows in
  let r := fn_call (retry_on_failure sample_time_sleep 3 1 (define d)) [VConn 0] ∅ world0 in
  r.1 = Return sample_rows /\
  w_env r.2 = 3%nat /\
  count_events is_call (new_events world0 r.2) = 3%nat.
Proof.
  apply (retry_on_failure_recovery sample_time_sleep
           (flaky (OperationalError "database is locked") 2 sample_rows) 3 1
           2 sample_rows [VConn 0] ∅ world0).
  - lia.
  - reflexivity.
  - intros i Hi. exists (OperationalError "database is locked").
    destruct i as [|[|i]]; [split; reflexivity | split; reflexivity | lia].
  - reflexivity.
Defined.

(** ** log_queries *)

(** C8, as stated, fails: [run_statement( *args, **kwargs)] declares no
    parameter named [query], so the rule locates no query in a positional
    call, and yet the record emitted before the call is an INFO record, not
    a WARNING. *)
Lemma log_queries_info_without_query :
  spec_log_queries_query (def_params (run_statement sample_rows))
    [VStr "SELECT 1"] ∅ = None /\
  w_trace (fn_call (log_queries sample_runtime (define (run_statement sample_rows)))
             [VStr "SELECT 1"] ∅ world0).2
    = [EvLog INFO
         "[2024-01-01T00:00:00] Executing SQL in run_statement: Query not found in standard position. Args: (...)";
       EvCall "run_statement" [VStr "SELECT 1"] ∅;
       EvLog INFO "[2024-01-01T00:00:00] Query in run_statement completed successfully"].
Proof. split; reflexivity. Qed.

(** A call without any argument is announced by a WARNING record. *)
Lemma log_queries_warns_on_missing_argument :
  let d := run_statement sample_rows in
  let r := fn_call (log_queries sample_runtime (define d)) [] ∅ world0 in
  spec_log_queries_query (def_params d) [] ∅ = None /\
  r.1 = Return sample_rows /\
  exists after : list event,
    new_events world0 r.2 =
      EvLog WARNING
        "[2024-01-01T00:00:00] run_statement called but no query parameter found"
      :: EvCall (def_name d) [] ∅ :: after /\
    Forall (fun ev => is_log ev = true) after.
Proof.
  assert (Hnone : spec_log_queries_query (def_params (run_statement sample_rows)) [] ∅
                  = None) by reflexivity.
  split; [exact Hnone|].
  destruct (proj2 (log_queries_warns_when_no_query sample_runtime
                     (run_statement sample_rows) [] ∅ world0) Hnone)
    as (Hout & _ & after & Hevents & Hlogs).
  split; [exact Hout|]. exists after. split; [exact Hevents | exact Hlogs].
Defined.

(** ** cache_query *)

(** C6, as stated, fails.  With an empty keyword [query] and a positional
    statement, the keyword is present and yet the positional argument is the
    query (the function is called and its result stored under it); with an
    empty keyword [query] alone, the rule locates a query string and yet the
    wrapper raises its [ValueError]. *)
Lemma cache_query_ignores_falsy_keyword :
  (spec_cache_query_query [VStr "SELECT 1"] {[ "query" := VStr EmptyString ]} = Some (VStr EmptyString) /\
   cache_query_query [VStr "SELECT 1"] {[ "query" := VStr EmptyString ]} = VStr "SELECT 1" /\
   (cache_query_wrapper (define (run_statement sample_rows)) (VConn 0)
      [VStr "SELECT 1"] {[ "query" := VStr EmptyString ]} world0).1 = Return sample_rows /\
   query_cache (cache_query_wrapper (define (run_statement sample_rows)) (VConn 0)
                  [VStr "SELECT 1"] {[ "query" := VStr EmptyString ]} world0).2
     !! KStr "SELECT 1" = Some sample_rows) /\
  (spec_cache_query_query [] {[ "query" := VStr EmptyString ]} = Some (VStr EmptyString) /\
   cache_query_wrapper (define (run_statement sample_rows)) (VConn 0)
     [] {[ "query" := VStr EmptyString ]} world0 = (Raise missing_query, world0)).
Proof. repeat split; reflexivity. Qed.

Lemma cache_query_rejects_empty_query :
  truthy (cache_query_query [] {[ "query" := VStr EmptyString ]}) = false /\
  cache_query_wrapper (define (run_statement sample_rows)) (VConn 0)
    [] {[ "query" := VStr EmptyString ]} world0 = (Raise missing_query, world0).
Proof.
  split; [reflexivity|].
  apply (proj1 (proj2 (cache_query_missing_query_error (run_statement sample_rows)
                         (VConn 0) [] {[ "query" := VStr EmptyString ]} world0))).
  reflexivity.
Defined.

Lemma cache_query_hit_on_warm_cache :
  cache_keys_truthy warm_world /\
  called_with "SELECT * FROM users" [] {[ "query" := VStr "SELECT * FROM users" ]} /\
  cache_query_wrapper (define (run_statement (VList []))) (VConn 1)
    [] {[ "query" := VStr "SELECT * FROM users" ]} warm_world
  = (Return sample_rows,
     emit (EvPrint "[CACHE HIT] Returning cached result.") warm_world).
Proof.
  assert (Hinv : cache_keys_truthy warm_world).
  { apply map_Forall_singleton. reflexivity. }
  assert (Hcall : called_with "SELECT * FROM users" []
                    {[ "query" := VStr "SELECT * FROM users" ]}).
  { left. reflexivity. }
  split; [exact Hinv|]. split; [exact Hcall|].
  apply (proj1 (cache_query_returns_cached_result (run_statement (VList []))
                  (VConn 1) [] {[ "query" := VStr "SELECT * FROM users" ]} warm_world)
           "SELECT * FROM users" sample_rows Hinv Hcall).
  reflexivity.
Defined.

(** A miss stores the result under the query of the call and nothing else. *)
Lemma cache_query_miss_adds_one_entry :
  query_cache (cache_query_wrapper (define (run_statement (VList []))) (VConn 1)
                 [VStr "SELECT name FROM users"] ∅ warm_world).2
  = <[ KStr "SELECT name FROM users" := VList [] ]> (query_cache warm_world).
Proof.
  apply (proj1 (proj2 (proj2 (cache_query_touches_own_entry_only
                                (run_statement (VList [])) (VConn 1)
                                [VStr "SELECT name FROM users"] ∅ warm_world)))
           (KStr "SELECT name FROM users") (VList []));
    reflexivity.
Defined.

(** ** The demonstration scripts *)

(** 4-cache_query.py, [__main__]: the first call misses and runs the
    statement, the second is answered from the cache; each call opens and
    closes its own connection. *)
Example fetch_users_with_cache_twice :
  let f := with_db_connection (cache_query (define (fetch_users_with_cache sample_rows))) in
  let kw : gmap string value := {[ "query" := VStr "SELECT * FROM users" ]} in
  let r1 := fn_call f [] kw world0 in
  let r2 := fn_call f [] kw r1.2 in
  r1.1 = Return sample_rows /\
  r2.1 = Return sample_rows /\
  new_events world0 r1.2 =
    [EvConnect "users.db" 0;
     EvPrint "[CACHE MISS] Executing and caching result.";
     EvCall "fetch_users_with_cache" [VConn 0] kw;
     EvClose 0] /\
  new_events r1.2 r2.2 =
    [EvConnect "users.db" 1;
     EvPrint "[CACHE HIT] Returning cached result.";
     EvClose 1].
Proof. repeat split; reflexivity. Qed.

(** 2-transactional.py, [update_user_email]: connect, run, commit, close. *)
Example update_user_email_commits :
  let update_user_email :=
    with_db_connection
      (transactional sample_driver
         (define (PyDef "update_user_email" "update_user_email"
                    ["conn"; "user_id"; "new_email"]
                    (fun _ _ (n : nat) => (Return VNone, S n))))) in
  let kw : gmap string value :=
    {[ "user_id" := VInt 1; "new_email" := VStr "Crawford_Cartwright@hotmail.com" ]} in
  let r := fn_call update_user_email [] kw world0 in
  r.1 = Return VNone /\
  new_events world0 r.2 =
    [EvConnect "users.db" 0; EvCall "update_user_email" [VConn 0] kw;
     EvCommit 0; EvClose 0].
Proof. split; reflexivity. Qed.

(** * Further properties *)

(** ** The text of a logged query *)

Lemma append_cons (a : ascii) (s1 s2 : string) :
  String a s1 +:+ s2 = String a (s1 +:+ s2).
Proof. reflexivity. Qed.

Lemma spaceless_app (s1 s2 : string) :
  spaceless (s1 +:+ s2) = spaceless s1 && spaceless s2.
Proof.
  induction s1 as [|a s1 IH]; [done|].
  rewrite append_cons. cbn [spaceless]. rewrite IH. by destruct (is_space a).
Qed.

Lemma append_nil_r (s : string) : s +:+ EmptyString = s.
Proof. induction s as [|a s IH]; [done | by rewrite append_cons, IH]. Qed.

Lemma append_assoc (s1 s2 s3 : string) : (s1 +:+ s2) +:+ s3 = s1 +:+ (s2 +:+ s3).
Proof. induction s1 as [|a s1 IH]; [done | by rewrite !append_cons, IH]. Qed.

Lemma is_word_snoc (w : string) (a : ascii) :
  spaceless w = true -> is_space a = false ->
  is_word (w +:+ String a EmptyString) = true.
Proof.
  intros Hw Ha.
  assert (Hs : spaceless (w +:+ String a EmptyString) = true).
  { rewrite spaceless_app, Hw. cbn. by rewrite Ha. }
  destruct w; [done|]. by rewrite append_cons in *.
Qed.

Lemma is_word_spaceless (w : string) : is_word w = true -> spaceless w = true.
Proof. by destruct w. Qed.

(** Every word [s.split()] yields is a word, whatever run was being read. *)
Lemma py_split_from_words (s : string) :
  forall cur : option string,
    (forall w, cur = Some w -> is_word w = true) ->
    Forall (fun w => is_word w = true) (py_split_from cur s).
Proof.
  induction s as [|a s IH]; intros cur Hcur; cbn.
  - destruct cur as [w|]; [|constructor]. by repeat constructor; apply Hcur.
  - destruct (is_space a) eqn:Ha.
    + destruct cur as [w|].
      * constructor; [by apply Hcur|]. by apply IH.
      * by apply IH.
    + apply IH. intros w [= <-]. apply is_word_snoc; [|done].
      destruct cur as [w|]; cbn; [|done]. apply is_word_spaceless. by apply Hcur.
Qed.

(** Reading a word extends the current run by it. *)
Lemma py_split_from_word (w : string) :
  forall (cur : option string) (rest : string),
    is_word w = true ->
    py_split_from cur (w +:+ rest) =
    py_split_from (Some (default EmptyString cur +:+ w)) rest.
Proof.
  induction w as [|a w IH]; intros cur rest Hw; [done|].
  cbn in Hw. apply andb_true_iff in Hw as [Ha Hw].
  apply negb_true_iff in Ha. rewrite append_cons. cbn [py_split_from]. rewrite Ha.
  destruct w as [|b w].
  - done.
  - rewrite IH by done. cbn [from_option id]. by rewrite append_assoc.
Qed.

Lemma py_split_join_from (ws : list string) :
  Forall (fun w => is_word w = true) ws ->
  py_split_from None (py_join " " ws) = ws.
Proof.
  unfold py_join. induction 1 as [|w ws Hw Hws IH]; [done|].
  cbn [String.concat]. destruct ws as [|w' ws].
  - rewrite <- (append_nil_r w) at 1.
    rewrite py_split_from_word by done. cbn. done.
  - rewrite py_split_from_word by done.
    change (" " +:+ String.concat " " (w' :: ws))
      with (String " "%char (String.concat " " (w' :: ws))).
    cbn [from_option id py_split_from].
    replace (is_space " ") with true by reflexivity.
    by rewrite IH.
Qed.

Lemma py_split_blank (s : string) :
  blank s = true -> py_split_from None s = [].
Proof.
  induction s as [|a s IH]; cbn; [done|].
  intros [Ha Hs]%andb_true_iff. rewrite Ha. by apply IH.
Qed.

(** X1. [' '.join(words)] followed by [.split()] gives the words back,
    provided each of them is a word (not empty, no whitespace inside): the
    join and the split of line 53 are inverse on word lists. *)
Theorem py_split_py_join (ws : list string) :
  Forall (fun w => is_word w = true) ws ->
  py_split (py_join " " ws) = ws.
Proof. apply py_split_join_from. Qed.

Section Normalisation.

Context {W : Type}.

(** X2. The text logged for a query string is a normal form: its words are
    those of the query (each without whitespace and not empty), joined by
    single spaces; normalising it again changes nothing. *)
Theorem clean_query_normal_form (rt : runtime W) (s : string) :
  let clean := clean_query rt (VStr s) in
  clean = py_join " " (py_split s) /\
  Forall (fun w => is_word w = true) (py_split s) /\
  py_split clean = py_split s /\
  clean_query rt (VStr clean) = clean.
Proof.
  intros clean. subst clean. cbn [clean_query].
  assert (Hwords : Forall (fun w => is_word w = true) (py_split s)).
  { apply py_split_from_words. intros w [=]. }
  assert (Hround : py_split (py_join " " (py_split s)) = py_split s).
  { by apply py_split_join_from. }
  repeat split; [done | done |]. by rewrite Hround.
Qed.

End Normalisation.

(** ** log_queries: the records of one call *)

Section LogRecords.

Context {W : Type}.

Implicit Types (w : world W) (d : pydef W) (rt : runtime W).
Implicit Types (args : list value) (kwargs : gmap string value).

(** X3. What [log_queries] records after the call tells the three kinds of
    failure apart: a [sqlite3.Error] gives two ERROR records, "Database
    error" with the text of the exception and then the query as it was
    located (not normalised); any other instance of [Exception] gives
    "Unexpected error" and the query; an exception outside [Exception] gives
    no record at all; a normal return gives one INFO record.  All records
    of a call carry the time read before the call. *)
Theorem log_queries_records_after_call rt d args kwargs w :
  let query := log_queries_query rt (define d) args kwargs in
  let stamp := "[" +:+ isoformat_now rt (w_env w) +:+ "] " in
  let inner := def_body d args kwargs (w_env w) in
  exists before : event,
    is_log before = true /\
    new_events w (fn_call (log_queries rt (define d)) args kwargs w).2 =
    before :: EvCall (def_name d) args kwargs ::
    match inner.1 with
    | Return _ =>
        [EvLog INFO (stamp +:+ "Query in " +:+ def_name d +:+ " completed successfully")]
    | Raise e =>
        if isinstance_sqlite_Error e then
          [EvLog ERROR (stamp +:+ "Database error in " +:+ def_name d +:+ ": " +:+ exn_str e);
           EvLog ERROR (stamp +:+ "Failed query: " +:+ str_of rt query)]
        else if isinstance_Exception e then
          [EvLog ERROR (stamp +:+ "Unexpected error in " +:+ def_name d +:+ ": " +:+ exn_str e);
           EvLog ERROR (stamp +:+ "Failed query: " +:+ str_of rt query)]
        else []
    end.
Proof.
  intros query stamp inner.
  pose proof (log_queries_events rt d args kwargs w) as H. cbv zeta in H.
  fold query stamp inner in H. rewrite H.
  eexists. split; [|reflexivity]. by destruct (truthy query).
Qed.

(** X4. A keyword query made of whitespace only is not empty, hence truthy:
    the call is announced by an INFO record whose query text is empty, not
    by the WARNING for a missing query. *)
Theorem log_queries_blank_query rt d args kwargs w (s : string) :
  kwargs !! "query" = Some (VStr s) ->
  s <> EmptyString ->
  blank s = true ->
  exists after : list event,
    new_events w (fn_call (log_queries rt (define d)) args kwargs w).2 =
    EvLog INFO (("[" +:+ isoformat_now rt (w_env w) +:+ "] ") +:+ "Executing SQL in "
                +:+ def_name d +:+ ": " +:+ EmptyString)
    :: EvCall (def_name d) args kwargs :: after.
Proof.
  intros Hkw Hs Hblank.
  pose proof (log_queries_events rt d args kwargs w) as H. cbv zeta in H.
  assert (Hq : log_queries_query rt (define d) args kwargs = VStr s).
  { unfold log_queries_query. by rewrite Hkw. }
  rewrite Hq in H. rewrite H.
  replace (truthy (VStr s)) with true by (by destruct s).
  cbn [clean_query]. unfold py_split. rewrite (py_split_blank s Hblank).
  eexists. reflexivity.
Qed.

(** X5. A keyword [query] decides alone: when it is present, neither the
    positional arguments nor the signature of the function are looked at,
    and a falsy one ([None], the empty string) gives the WARNING record
    even if a statement was also passed positionally. *)
Theorem log_queries_keyword_decides rt d args kwargs w (q : value) :
  kwargs !! "query" = Some q ->
  log_queries_query rt (define d) args kwargs = q /\
  (truthy q = false ->
   exists after : list event,
     new_events w (fn_call (log_queries rt (define d)) args kwargs w).2 =
     EvLog WARNING (("[" +:+ isoformat_now rt (w_env w) +:+ "] ") +:+ def_name d
                    +:+ " called but no query parameter found")
     :: EvCall (def_name d) args kwargs :: after).
Proof.
  intros Hkw.
  assert (Hq : log_queries_query rt (define d) args kwargs = q).
  { unfold log_queries_query. by rewrite Hkw. }
  split; [exact Hq|]. intros Hfalsy.
  pose proof (log_queries_events rt d args kwargs w) as H. cbv zeta in H.
  rewrite Hq, Hfalsy in H. rewrite H. eexists. reflexivity.
Qed.

End LogRecords.

(** ** retry_on_failure: what every run looks like *)

Section RetryRuns.

Context {W : Type}.

Implicit Types (w : world W) (d : pydef W) (time_sleep : Z -> option exn).
Implicit Types (args : list value) (kwargs : gmap string value).

Lemma count_events_nil (p : event -> bool) : count_events p [] = 0%nat.
Proof. reflexivity. Qed.

Lemma without_prints_cons (ev : event) (evs : list event) :
  without_prints (ev :: evs) =
  if is_print ev then without_prints evs else ev :: without_prints evs.
Proof.
  unfold without_prints. rewrite filter_cons.
  destruct (is_print ev); by case_decide.
Qed.

Lemma without_prints_app (evs1 evs2 : list event) :
  without_prints (evs1 ++ evs2) = without_prints evs1 ++ without_prints evs2.
Proof. apply filter_app. Qed.

Lemma interleaved_calls (call pause : event) (n : nat) :
  is_call call = true -> is_call pause = false ->
  count_events is_call (interleaved call pause n) = n.
Proof.
  intros Hc Hp. induction n as [|n IH]; [done|].
  cbn [interleaved]. rewrite count_events_cons, Hc.
  destruct n as [|n]; [done|].
  rewrite count_events_cons, Hp, IH. done.
Qed.

Lemma interleaved_sleeps (call pause : event) (n : nat) :
  is_sleep call = false -> is_sleep pause = true ->
  count_events is_sleep (interleaved call pause n) = (n - 1)%nat.
Proof.
  intros Hc Hp. induction n as [|n IH]; [done|].
  cbn [interleaved]. rewrite count_events_cons, Hc.
  destruct n as [|n]; [done|].
  rewrite count_events_cons, Hp, IH. cbn. lia.
Qed.

(** The events of the loop on the attempts [a, ..., retries] are calls on
    the same arguments, prints and sleeps of [delay]; leaving the prints
    out, they are [m] calls with one sleep between each two, where [m] is
    at most the number of attempts left and at least one if any is left. *)
Lemma retry_loop_shape time_sleep d (retries delay : Z) args kwargs :
  forall (n : nat) (a : Z) w,
    (a + Z.of_nat n = retries + 1)%Z ->
    exists (evs : list event) (m : nat),
      w_trace (retry_loop time_sleep (define d) retries delay (attempts_from a n)
                 args kwargs w).2 = w_trace w ++ evs /\
      query_cache (retry_loop time_sleep (define d) retries delay (attempts_from a n)
                     args kwargs w).2 = query_cache w /\
      w_next_conn (retry_loop time_sleep (define d) retries delay (attempts_from a n)
                     args kwargs w).2 = w_next_conn w /\
      Forall (fun ev => ev = EvCall (def_name d) args kwargs \/
                        is_print ev = true \/ ev = EvSleep delay) evs /\
      without_prints evs =
        interleaved (EvCall (def_name d) args kwargs) (EvSleep delay) m /\
      (m <= n)%nat /\
      ((1 <= n)%nat -> (1 <= m)%nat).
Proof.
  induction n as [|n IH]; intros a w Ha.
  { exists [], 0%nat. cbn. rewrite app_nil_r. repeat split; first [constructor | lia]. }
  cbn [attempts_from retry_loop]. rewrite define_call.
  destruct (def_body d args kwargs (w_env w)) as [[v|e] u]; cbn [fst snd].
  { exists [EvCall (def_name d) args kwargs], 1%nat.
    cbn [snd w_trace query_cache w_next_conn].
    repeat split; first [done | lia | repeat constructor; by left]. }
  destruct (isinstance_Exception e); cycle 1.
  { exists [EvCall (def_name d) args kwargs], 1%nat.
    cbn [snd w_trace query_cache w_next_conn].
    repeat split; first [done | lia | repeat constructor; by left]. }
  destruct (a <? retries)%Z eqn:Hlt; cycle 1.
  { eexists [EvCall (def_name d) args kwargs; EvPrint _; EvPrint _], 1%nat.
    cbn [snd emit w_trace query_cache w_next_conn]. rewrite <- !app_assoc.
    repeat split;
      first [done | lia | repeat constructor; (by left) || (right; by left)]. }
  unfold sleep. destruct (time_sleep delay) as [refused|].
  { eexists [EvCall (def_name d) args kwargs; EvPrint _; EvPrint _], 1%nat.
    cbn [snd emit w_trace query_cache w_next_conn]. rewrite <- !app_assoc.
    repeat split;
      first [done | lia | repeat constructor; (by left) || (right; by left)]. }
  apply Z.ltb_lt in Hlt.
  match goal with
  | |- context [retry_loop _ _ _ _ (attempts_from (a + 1) n) _ _ ?w4] =>
      destruct (IH (a + 1)%Z w4 ltac:(lia))
        as (evs & m & Htrace & Hcache & Hnext & Hall & Hshape & Hle & Hge)
  end.
  eexists ([EvCall (def_name d) args kwargs; EvPrint _; EvPrint _; EvSleep delay] ++ evs),
          (S m).
  rewrite Htrace, Hcache, Hnext. cbn [emit w_trace query_cache w_next_conn].
  specialize (Hge ltac:(lia)).
  repeat split.
  - by rewrite <- !app_assoc.
  - apply Forall_app. split; [|done].
    repeat constructor; (by left) || (right; by left) || (right; by right).
  - rewrite without_prints_app, !without_prints_cons. cbn [is_print].
    change (without_prints []) with (@nil event). cbn [app]. rewrite Hshape.
    destruct m as [|m]; [lia | done].
  - lia.
  - lia.
Qed.

(** X6. However the function behaves and whatever [time.sleep] does, a
    call through [retry_on_failure] makes [m] invocations, at most
    [retries] and at least one when [retries >= 1], always on the same
    arguments; leaving its prints out, the events of the call are exactly
    invocation, sleep of [delay], invocation, ..., invocation: one sleep
    between each two consecutive invocations, none before the first and
    none after the last.  The cache and the connections are untouched. *)
Theorem retry_on_failure_bounds time_sleep d (retries delay : Z) args kwargs w :
  let r := fn_call (retry_on_failure time_sleep retries delay (define d)) args kwargs w in
  let evs := new_events w r.2 in
  exists m : nat,
    (m <= Z.to_nat retries)%nat /\
    ((1 <= retries)%Z -> (1 <= m)%nat) /\
    without_prints evs =
      interleaved (EvCall (def_name d) args kwargs) (EvSleep delay) m /\
    Forall (fun ev => ev = EvCall (def_name d) args kwargs \/
                      is_print ev = true \/ ev = EvSleep delay) evs /\
    count_events is_call evs = m /\
    count_events is_sleep evs = (m - 1)%nat /\
    query_cache r.2 = query_cache w /\
    w_next_conn r.2 = w_next_conn w.
Proof.
  intros r evs. subst evs r.
  unfold retry_on_failure, wraps. cbn [fn_call]. rewrite py_range_attempts.
  assert (Hcount : forall (p : event -> bool) (evs : list event),
            (forall ev, is_print ev = true -> p ev = false) ->
            count_events p evs = count_events p (without_prints evs)).
  { intros p evs Hp. induction evs as [|ev evs IH]; [done|].
    rewrite without_prints_cons, count_events_cons.
    destruct (is_print ev) eqn:Hev.
    - by rewrite (Hp ev Hev), IH.
    - by rewrite count_events_cons, IH. }
  destruct (Z.le_gt_cases 1 retries) as [Hpos|Hnone].
  - destruct (retry_loop_shape time_sleep d retries delay args kwargs
                (Z.to_nat retries) 1 w)
      as (evs & m & Htrace & Hcache & Hnext & Hall & Hshape & Hle & Hge); [lia|].
    rewrite (new_events_app _ _ _ Htrace). exists m.
    split; [done|]. split; [intros _; apply Hge; lia|]. split; [done|].
    split; [done|].
    split; [|split; [|done]].
    + rewrite (Hcount is_call) by (by intros []). rewrite Hshape.
      by apply interleaved_calls.
    + rewrite (Hcount is_sleep) by (by intros []). rewrite Hshape.
      by apply interleaved_sleeps.
  - replace (Z.to_nat retries) with 0%nat by lia. cbn [attempts_from retry_loop snd].
    rewrite (new_events_app w w []) by (by rewrite app_nil_r).
    exists 0%nat. repeat split; [lia | lia | constructor].
Qed.

(** X7. When [time.sleep] refuses the configured delay (a negative delay is
    refused with a [ValueError]) and at least two attempts are configured,
    a first failure by an instance of [Exception] ends the call: the
    wrapper raises the exception of [time.sleep] instead of the function's,
    after one invocation and without sleeping. *)
Theorem retry_on_failure_negative_delay time_sleep d (retries delay : Z)
    (e refused : exn) args kwargs w :
  (2 <= retries)%Z ->
  time_sleep delay = Some refused ->
  (def_body d args kwargs (w_env w)).1 = Raise e ->
  isinstance_Exception e = true ->
  let r := fn_call (retry_on_failure time_sleep retries delay (define d)) args kwargs w in
  r.1 = Raise refused /\
  count_events is_call (new_events w r.2) = 1%nat /\
  count_events is_sleep (new_events w r.2) = 0%nat.
Proof.
  intros Hretries Hdelay He Hexc r. subst r.
  unfold retry_on_failure, wraps. cbn [fn_call]. rewrite py_range_attempts.
  destruct (Z.to_nat retries) as [|n] eqn:Hn; [lia|].
  cbn [attempts_from retry_loop]. rewrite define_call, He, Hexc.
  replace (1 <? retries)%Z with true by lia.
  unfold sleep. rewrite Hdelay.
  cbn [fst snd]. split; [done|].
  erewrite new_events_app;
    [|unfold emit; cbn [w_trace]; rewrite <- !app_assoc; reflexivity].
  cbn [app]. rewrite !count_events_cons, !count_events_nil. done.
Qed.

(** X8. An exception that is not an instance of [Exception] is never
    retried: after [k] retried failures (the delay being one [time.sleep]
    accepts), such an exception at invocation [k + 1] leaves the wrapper at
    once, unchanged, although attempts remain; the invocation is the last
    event of the call (nothing is printed). *)
Theorem retry_on_failure_lets_base_exceptions_through time_sleep d
    (retries delay : Z) (k : nat) (e : exn) args kwargs w :
  (Z.of_nat k < retries)%Z ->
  ((0 < k)%nat -> time_sleep delay = None) ->
  (forall i, (i < k)%nat ->
     exists e', nth_outcome d args kwargs i (w_env w) = Raise e' /\
                isinstance_Exception e' = true) ->
  nth_outcome d args kwargs k (w_env w) = Raise e ->
  isinstance_Exception e = false ->
  let r := fn_call (retry_on_failure time_sleep retries delay (define d)) args kwargs w in
  r.1 = Raise e /\
  count_events is_call (new_events w r.2) = S k /\
  last (new_events w r.2) = Some (EvCall (def_name d) args kwargs).
Proof.
  intros Hk Hdelay Hfail Hlast Hbase r. subst r.
  unfold retry_on_failure, wraps. cbn [fn_call]. rewrite py_range_attempts.
  destruct (retry_loop_failures time_sleep d retries delay args kwargs k 1
              (Z.to_nat retries) w)
    as (w' & evs & Hloop & Henv & Htrace & Hcount); [lia | lia | done | done |].
  rewrite Hloop.
  destruct (Z.to_nat retries - k)%nat as [|m] eqn:Hm; [lia|].
  unfold nth_outcome in Hlast. rewrite <- Henv in Hlast.
  cbn [attempts_from retry_loop]. rewrite define_call, Hlast, Hbase.
  cbn [fst snd]. split; [done|].
  erewrite new_events_app;
    [|cbn [w_trace]; rewrite Htrace, <- !app_assoc; reflexivity].
  split.
  - rewrite count_events_app, Hcount, count_events_cons, count_events_nil. cbn. lia.
  - apply last_snoc.
Qed.

(** X9. [fetch_users_with_retry]: under [with_db_connection], all the
    attempts of [retry_on_failure] run on the one connection opened for the
    call, which is closed after the last attempt whatever the outcome; no
    attempt gets a new connection. *)
Theorem with_db_connection_retry_shares_connection time_sleep d (retries delay : Z)
    args kwargs w :
  let c := w_next_conn w in
  let r := fn_call (with_db_connection
                      (retry_on_failure time_sleep retries delay (define d)))
             args kwargs w in
  exists evs : list event,
    new_events w r.2 = EvConnect "users.db" c :: evs ++ [EvClose c] /\
    Forall (fun ev => ev = EvCall (def_name d) (VConn c :: args) kwargs \/
                      is_print ev = true \/ ev = EvSleep delay) evs /\
    (count_events is_call evs <= Z.to_nat retries)%nat.
Proof.
  intros c r. subst r. rewrite with_db_connection_finally. fold c.
  cbn [snd]. unfold retry_on_failure, wraps. cbn [fn_call].
  rewrite py_range_attempts.
  destruct (Z.le_gt_cases 1 retries) as [Hpos|Hnone].
  - destruct (retry_loop_shape time_sleep d retries delay (VConn c :: args) kwargs
                (Z.to_nat retries) 1 (connect "users.db" w).2)
      as (evs & m & Htrace & _ & _ & Hall & Hshape & Hle & _); [lia|].
    exists evs. split; [|split; [done|]].
    + apply new_events_app. cbn [emit w_trace]. rewrite Htrace.
      cbn [connect snd w_trace]. fold c. by rewrite <- !app_assoc.
    + assert (Hcalls : count_events is_call evs
                       = count_events is_call (without_prints evs)).
      { clear. induction evs as [|ev evs IH]; [done|].
        rewrite without_prints_cons, count_events_cons.
        destruct ev; cbn [is_print is_call]; rewrite ?count_events_cons; cbn [is_call];
          by rewrite IH. }
      rewrite Hcalls, Hshape, interleaved_calls by done. lia.
  - replace (Z.to_nat retries) with 0%nat by lia. cbn [attempts_from retry_loop snd].
    exists []. split; [|split; [constructor | cbn; lia]].
    apply new_events_app. cbn. fold c. by rewrite <- app_assoc.
Qed.

End RetryRuns.

(** ** The decorated functions of the scripts *)

Section DecoratedFunctions.

Context {W : Type}.

Implicit Types (w : world W) (d : pydef W).
Implicit Types (args : list value) (kwargs : gmap string value).

(** X10. [update_user_email]: under [with_db_connection], whatever the
    transaction does (commit, rollback, diagnostic) happens on the
    connection opened for the call, after the function and before the
    close, and the close is reached on every path, also when the commit or
    the rollback itself raises.  A normal return whose commit succeeds gives
    the commit alone and the function's result; an instance of [Exception]
    whose rollback succeeds gives the rollback, the diagnostic and that
    exception; an exception outside [Exception] goes straight to the close;
    a commit that raises is the first transaction event and the call
    raises. *)
Theorem with_db_connection_transactional_order drv d args kwargs w :
  kwargs !! "conn" = None ->
  let c := w_next_conn w in
  let inner := def_body d (VConn c :: args) kwargs (w_env w) in
  let r := fn_call (with_db_connection (transactional drv (define d))) args kwargs w in
  exists tx : list event,
    new_events w r.2 =
      EvConnect "users.db" c :: EvCall (def_name d) (VConn c :: args) kwargs
      :: tx ++ [EvClose c] /\
    Forall (fun ev => ev = EvCommit c \/ ev = EvRollback c \/ is_print ev = true) tx /\
    (forall v u,
       inner.1 = Return v -> conn_commit drv c inner.2 = (None, u) ->
       r.1 = Return v /\ tx = [EvCommit c]) /\
    (forall e u,
       inner.1 = Raise e -> isinstance_Exception e = true ->
       conn_rollback drv c inner.2 = (None, u) ->
       r.1 = Raise e /\
       tx = [EvRollback c; EvPrint ("Transaction failed: " +:+ exn_str e)]) /\
    (forall e,
       inner.1 = Raise e -> isinstance_Exception e = false ->
       r.1 = Raise e /\ tx = []) /\
    (forall v e u,
       inner.1 = Return v -> conn_commit drv c inner.2 = (Some e, u) ->
       head tx = Some (EvCommit c) /\ exists e', r.1 = Raise e').
Proof.
  intros Hkw c inner r. subst r.
  rewrite with_db_connection_finally. fold c.
  rewrite transactional_positional by done.
  rewrite transactional_wrapper_on_connection, define_call.
  unfold transactional_except.
  cbn [connect snd w_env w_trace fst emit set_env]. fold c inner.
  destruct inner as [[v|e] u]; cbn [fst snd].
  - destruct (conn_commit drv c u) as [[e|] u1] eqn:Hcommit; cbn [fst snd].
    + destruct (isinstance_Exception e) eqn:Hexc.
      * destruct (conn_rollback drv c u1) as [[e'|] u2] eqn:Hrollback; cbn [fst snd].
        -- exists [EvCommit c; EvRollback c].
           split; [apply new_events_app; cbn; by rewrite <- !app_assoc|].
           split; [repeat constructor; (by left) || (right; by left)|].
           repeat split; intros; solve [congruence | simplify_eq/=; repeat split; eauto].
        -- eexists [EvCommit c; EvRollback c; EvPrint _].
           split; [apply new_events_app; cbn; by rewrite <- !app_assoc|].
           split; [repeat constructor;
                   (by left) || (right; by left) || (right; by right)|].
           repeat split; intros; solve [congruence | simplify_eq/=; repeat split; eauto].
      * exists [EvCommit c].
        split; [apply new_events_app; cbn; by rewrite <- !app_assoc|].
        split; [repeat constructor; by left|].
        repeat split; intros; solve [congruence | simplify_eq/=; repeat split; eauto].
    + exists [EvCommit c].
      split; [apply new_events_app; cbn; by rewrite <- !app_assoc|].
      split; [repeat constructor; by left|].
      repeat split; intros; solve [congruence | simplify_eq/=; repeat split; eauto].
  - destruct (isinstance_Exception e) eqn:Hexc.
    + destruct (conn_rollback drv c u) as [[e'|] u2] eqn:Hrollback; cbn [fst snd].
      * exists [EvRollback c].
        split; [apply new_events_app; cbn; by rewrite <- !app_assoc|].
        split; [repeat constructor; right; by left|].
        repeat split; intros; solve [congruence | simplify_eq/=; repeat split; eauto].
      * eexists [EvRollback c; EvPrint _].
        split; [apply new_events_app; cbn; by rewrite <- !app_assoc|].
        split; [repeat constructor; (right; by left) || (right; by right)|].
        repeat split; intros; solve [congruence | simplify_eq/=; repeat split; eauto].
    + exists [].
      split; [apply new_events_app; cbn; by rewrite <- !app_assoc|].
      split; [constructor|].
      repeat split; intros; solve [congruence | simplify_eq/=; repeat split; eauto].
Qed.

(** X11. The decorated functions of 2-transactional.py and 4-cache_query.py
    cannot be given their connection by keyword: [with_db_connection] passes
    its own first, so a keyword [conn] makes the call a [TypeError] naming
    the function by its qualified name; the function is not invoked, nothing
    is committed, rolled back or cached, and the connection that was opened
    is closed. *)
Theorem with_db_connection_rejects_keyword_conn drv d args kwargs w (x : value) :
  kwargs !! "conn" = Some x ->
  let c := w_next_conn w in
  let error :=
    Raise (TypeError (def_qualname d +:+ "() got multiple values for argument 'conn'")) in
  let r1 := fn_call (with_db_connection (transactional drv (define d))) args kwargs w in
  let r2 := fn_call (with_db_connection (cache_query (define d))) args kwargs w in
  (r1.1 = error /\
   new_events w r1.2 = [EvConnect "users.db" c; EvClose c] /\
   w_env r1.2 = w_env w) /\
  (r2.1 = error /\
   new_events w r2.2 = [EvConnect "users.db" c; EvClose c] /\
   w_env r2.2 = w_env w /\
   query_cache r2.2 = query_cache w).
Proof.
  intros Hkw c error r1 r2. subst r1 r2 error.
  rewrite !with_db_connection_finally. fold c.
  cbn [fn_call transactional cache_query wraps]. unfold bind_conn. rewrite Hkw.
  cbn [fst snd define fn_qualname emit connect w_env w_trace query_cache].
  repeat split; apply new_events_app; cbn; by rewrite <- app_assoc.
Qed.

(** X12. [fetch_users_with_cache]: a call answered from the cache still
    opens a connection and closes it; the connection is never used and the
    function is not invoked. *)
Theorem with_db_connection_cache_hit_still_connects d args kwargs w
    (k : key) (cached : value) :
  kwargs !! "conn" = None ->
  truthy (cache_query_query args kwargs) = true ->
  hash_key (cache_query_query args kwargs) = Some k ->
  query_cache w !! k = Some cached ->
  let c := w_next_conn w in
  let r := fn_call (with_db_connection (cache_query (define d))) args kwargs w in
  r.1 = Return cached /\
  new_events w r.2 =
    [EvConnect "users.db" c; EvPrint "[CACHE HIT] Returning cached result.";
     EvClose c] /\
  w_env r.2 = w_env w /\
  query_cache r.2 = query_cache w.
Proof.
  intros Hkw Ht Hk Hc c r. subst r.
  rewrite with_db_connection_finally. fold c.
  rewrite cache_query_positional by done.
  erewrite cache_query_cached by done.
  cbn [fst snd emit connect w_env w_trace query_cache].
  repeat split. apply new_events_app. cbn. by rewrite <- !app_assoc.
Qed.

End DecoratedFunctions.

(** ** The shared cache *)

Section SharedCache.

Context {W : Type}.

Implicit Types (w : world W) (d : pydef W).
Implicit Types (args : list value) (kwargs : gmap string value).

(** One call only adds to the cache. *)
Lemma cache_query_cache_grows d conn args kwargs w :
  query_cache w ⊆ query_cache (cache_query_wrapper (define d) conn args kwargs w).2 /\
  size (query_cache (cache_query_wrapper (define d) conn args kwargs w).2)
    <= S (size (query_cache w)).
Proof.
  destruct (truthy (cache_query_query args kwargs)) eqn:Ht;
    [|rewrite cache_query_falsy by done; split; [done | cbn; lia]].
  destruct (hash_key (cache_query_query args kwargs)) as [k|] eqn:Hk;
    [|rewrite cache_query_unhashable by done; split; [done | cbn; lia]].
  destruct (query_cache w !! k) as [cached|] eqn:Hc.
  - erewrite cache_query_cached by done. split; [done | cbn; lia].
  - erewrite cache_query_miss by done. cbn [snd query_cache].
    destruct (def_body d (conn :: args) kwargs (w_env w)).1; [|split; [done | lia]].
    split; [by apply insert_subseteq|]. by rewrite map_size_insert_None.
Qed.

Lemma after_calls_cache_grows (calls : list (cached_call W)) :
  forall w,
    query_cache w ⊆ query_cache (after_calls calls w) /\
    size (query_cache (after_calls calls w)) <= size (query_cache w) + length calls.
Proof.
  induction calls as [|c calls IH]; intros w; cbn [after_calls length].
  - split; [done | lia].
  - destruct (cache_query_cache_grows (call_def c) (call_conn c) (call_args c)
                (call_kwargs c) w) as [Hsub Hsize].
    destruct (IH (cache_query_wrapper (define (call_def c)) (call_conn c)
                    (call_args c) (call_kwargs c) w).2) as [Hsub' Hsize'].
    split; [by etrans | lia].
Qed.

(** X13. A call invokes the function at most once, and exactly when the
    query is truthy, hashable and not yet in the cache; a truthy list as
    query is a [TypeError] raised before anything else is done. *)
Theorem cache_query_invokes_at_most_once d conn args kwargs w :
  let query := cache_query_query args kwargs in
  let r := cache_query_wrapper (define d) conn args kwargs w in
  let n := count_events is_call (new_events w r.2) in
  (n <= 1)%nat /\
  (n = 1%nat <->
   truthy query = true /\ exists k, hash_key query = Some k /\ query_cache w !! k = None) /\
  (truthy query = true -> hash_key query = None ->
   r = (Raise (TypeError "unhashable type: 'list'"), w)).
Proof.
  intros query r n. subst query r n.
  destruct (truthy (cache_query_query args kwargs)) eqn:Ht.
  2:{ rewrite cache_query_falsy by done. cbn [snd]. rewrite (new_events_app w w []) by (by rewrite app_nil_r).
      cbn. split; [lia|]. split; [|done]. split; [done | by intros [? _]]. }
  destruct (hash_key (cache_query_query args kwargs)) as [k|] eqn:Hk.
  2:{ rewrite cache_query_unhashable by done. cbn [snd].
      rewrite (new_events_app w w []) by (by rewrite app_nil_r).
      cbn. split; [lia|]. split; [|done].
      split; [done | by intros [_ (? & ? & _)]]. }
  destruct (query_cache w !! k) as [cached|] eqn:Hc.
  - erewrite cache_query_cached by done. cbn [snd].
    erewrite new_events_app by reflexivity.
    rewrite count_events_cons. cbn. split; [lia|]. split; [|done].
    split; [done|]. intros [_ (k' & [= <-] & Hnone)]. congruence.
  - erewrite cache_query_miss by done. cbn [snd].
    erewrite new_events_app by reflexivity.
    rewrite !count_events_cons. cbn. split; [lia|]. split; [|done].
    split; [|done]. intros _. split; [done|]. by exists k.
Qed.

(** X14. The cache is shared and keyed by the query alone: once a call has
    returned, any later call whose query is the same value gets that result
    from the cache, whichever decorated function it goes to and whatever its
    connection and other arguments are; that function is not invoked. *)
Theorem query_cache_is_shared_across_functions d d' conn conn' args args'
    kwargs kwargs' w (v : value) (w1 : world W) :
  cache_query_wrapper (define d) conn args kwargs w = (Return v, w1) ->
  cache_query_query args' kwargs' = cache_query_query args kwargs ->
  cache_query_wrapper (define d') conn' args' kwargs' w1 =
  (Return v, emit (EvPrint "[CACHE HIT] Returning cached result.") w1).
Proof.
  intros Hfirst Hsame.
  destruct (truthy (cache_query_query args kwargs)) eqn:Ht;
    [|by rewrite cache_query_falsy in Hfirst].
  destruct (hash_key (cache_query_query args kwargs)) as [k|] eqn:Hk;
    [|by rewrite cache_query_unhashable in Hfirst].
  apply (cache_query_cached d' conn' args' kwargs' w1 k); rewrite ?Hsame; [done..|].
  destruct (query_cache w !! k) as [cached|] eqn:Hc.
  - erewrite cache_query_cached in Hfirst by done.
    by injection Hfirst as <- <-.
  - erewrite cache_query_miss in Hfirst by done.
    injection Hfirst as Hv <-. cbn [query_cache]. rewrite Hv.
    apply lookup_insert_eq.
Qed.

(** X15. Nothing is ever evicted or refreshed: an entry of the cache is
    still there, with the same result, after any sequence of calls of
    cached functions, and a call with that query keeps being answered by it;
    the cache grows by at most one entry per call. *)
Theorem query_cache_entries_are_permanent (calls : list (cached_call W)) w
    (k : key) (v : value) :
  query_cache w !! k = Some v ->
  query_cache (after_calls calls w) !! k = Some v /\
  (size (query_cache w) <= size (query_cache (after_calls calls w))
     <= size (query_cache w) + length calls)%nat /\
  (forall d conn args kwargs,
     truthy (cache_query_query args kwargs) = true ->
     hash_key (cache_query_query args kwargs) = Some k ->
     cache_query_wrapper (define d) conn args kwargs (after_calls calls w) =
     (Return v, emit (EvPrint "[CACHE HIT] Returning cached result.")
                  (after_calls calls w))).
Proof.
  intros Hk.
  destruct (after_calls_cache_grows calls w) as [Hsub Hsize].
  assert (Hk' : query_cache (after_calls calls w) !! k = Some v)
    by (by eapply lookup_weaken).
  split; [done|]. split.
  - split; [by apply map_subseteq_size | done].
  - intros d conn args kwargs Ht Hhash. by apply cache_query_cached with k.
Qed.

(** X16. Starting from a cache with truthy keys only (the empty cache of a
    fresh module is one), no sequence of calls ever stores a falsy key:
    [None], the empty string and zero are never keys of the cache. *)
Theorem query_cache_never_holds_falsy_key (calls : list (cached_call W)) w :
  cache_keys_truthy w ->
  cache_keys_truthy (after_calls calls w) /\
  query_cache (after_calls calls w) !! KNone = None /\
  query_cache (after_calls calls w) !! KStr EmptyString = None /\
  query_cache (after_calls calls w) !! KInt 0 = None.
Proof.
  intros Hinv.
  assert (Hafter : cache_keys_truthy (after_calls calls w)).
  { revert w Hinv. induction calls as [|c calls IH]; intros w Hinv; [done|].
    cbn [after_calls]. apply IH. by apply cache_query_keeps_keys_truthy. }
  split; [done|].
  repeat split;
    match goal with
    | |- ?m !! ?key = None =>
        destruct (m !! key) as [x|] eqn:Hx; [|done];
        by apply Hafter in Hx
    end.
Qed.

End SharedCache.

(** ** Connections under any stack of decorators *)

Section Connections.

Context {W : Type}.

Implicit Types (w : world W) (d : pydef W) (func : pyfunc W).
Implicit Types (args : list value) (kwargs : gmap string value).

Lemma balance_snoc (c : nat) (t : list event) (ev : event) :
  balance c (t ++ [ev]) =
  (balance c t + (if opens c ev then 1 else 0) - (if closes c ev then 1 else 0))%Z.
Proof.
  unfold balance. rewrite !count_events_app, !count_events_cons.
  change (count_events (opens c) []) with 0%nat.
  change (count_events (closes c) []) with 0%nat.
  destruct (opens c ev), (closes c ev); lia.
Qed.

Lemma balance_emit (c : nat) (ev : event) w :
  opens c ev = false -> closes c ev = false ->
  balance c (w_trace (emit ev w)) = balance c (w_trace w).
Proof. intros Ho Hc. cbn. rewrite balance_snoc, Ho, Hc. lia. Qed.

Lemma balance_conn_method (c : nat) (attr : string) (ev : nat -> event)
    (run : nat -> W -> option exn * W) (conn : value) w :
  (forall c', opens c (ev c') = false) -> (forall c', closes c (ev c') = false) ->
  balance c (w_trace (conn_method attr ev run conn w).2) = balance c (w_trace w).
Proof.
  intros Ho Hc. destruct conn; cbn [conn_method snd]; try done.
  destruct (run _ _) as [raised u]. cbn [snd set_env w_trace].
  by apply balance_emit.
Qed.

Lemma define_keeps_connections d : keeps_connections (define d).
Proof.
  intros c args kwargs w. rewrite define_call. cbn [snd w_trace].
  rewrite balance_snoc. cbn. lia.
Qed.

Lemma log_queries_keeps_connections rt func :
  keeps_connections func -> keeps_connections (log_queries rt func).
Proof.
  intros Hf c args kwargs w. unfold log_queries, wraps. cbn [fn_call].
  match goal with
  | |- context [fn_call func args kwargs ?w1] =>
      pose proof (Hf c args kwargs w1) as H1;
      assert (H0 : balance c (w_trace w1) = balance c (w_trace w))
        by (destruct (truthy _); by apply balance_emit);
      destruct (fn_call func args kwargs w1) as [[v|e] w2]
  end; cbn [snd] in *.
  - rewrite balance_emit by done. congruence.
  - destruct (isinstance_sqlite_Error e); [|destruct (isinstance_Exception e)];
      cbn [snd]; rewrite ?balance_emit by done; congruence.
Qed.

Lemma with_db_connection_keeps_connections func :
  keeps_connections func -> keeps_connections (with_db_connection func).
Proof.
  intros Hf c args kwargs w. rewrite with_db_connection_finally. cbn [snd].
  cbn [emit w_trace]. rewrite balance_snoc, Hf. cbn [connect snd w_trace].
  rewrite balance_snoc. cbn [opens closes].
  destruct (bool_decide (w_next_conn w = c)); lia.
Qed.

Lemma transactional_keeps_connections drv func :
  keeps_connections func -> keeps_connections (transactional drv func).
Proof.
  intros Hf c args kwargs w. cbn [transactional wraps fn_call]. unfold bind_conn.
  assert (Hbody : forall conn args' kwargs',
            balance c (w_trace (transactional_wrapper drv func conn args' kwargs' w).2)
            = balance c (w_trace w)).
  { intros conn args' kwargs'. unfold transactional_wrapper.
    pose proof (Hf c (conn :: args') kwargs' w) as H1.
    destruct (fn_call func (conn :: args') kwargs' w) as [[v|e] w1]; cbn [snd] in H1.
    - pose proof (balance_conn_method c "commit" EvCommit (conn_commit drv) conn w1
                    ltac:(done) ltac:(done)) as H2.
      destruct (conn_method "commit" EvCommit (conn_commit drv) conn w1)
        as [[e|] w2]; cbn [snd] in H2; [|cbn [snd]; congruence].
      destruct (isinstance_Exception e); [|cbn [snd]; congruence].
      pose proof (balance_conn_method c "rollback" EvRollback (conn_rollback drv) conn w2
                    ltac:(done) ltac:(done)) as H3.
      destruct (conn_method "rollback" EvRollback (conn_rollback drv) conn w2)
        as [[e'|] w3]; cbn [snd] in *; rewrite ?balance_emit by done; congruence.
    - destruct (isinstance_Exception e); [|cbn [snd]; congruence].
      pose proof (balance_conn_method c "rollback" EvRollback (conn_rollback drv) conn w1
                    ltac:(done) ltac:(done)) as H3.
      destruct (conn_method "rollback" EvRollback (conn_rollback drv) conn w1)
        as [[e'|] w3]; cbn [snd] in *; rewrite ?balance_emit by done; congruence. }
  destruct args as [|conn rest]; destruct (kwargs !! "conn"); cbn [snd];
    try done; apply Hbody.
Qed.

Lemma cache_query_keeps_connections func :
  keeps_connections func -> keeps_connections (cache_query func).
Proof.
  intros Hf c args kwargs w. cbn [cache_query wraps fn_call]. unfold bind_conn.
  assert (Hbody : forall conn args' kwargs',
            balance c (w_trace (cache_query_wrapper func conn args' kwargs' w).2)
            = balance c (w_trace w)).
  { intros conn args' kwargs'. unfold cache_query_wrapper.
    destruct (truthy (cache_query_query args' kwargs')); cbn [negb]; [|done].
    destruct (hash_key (cache_query_query args' kwargs')) as [k|]; [|done].
    destruct (query_cache w !! k); cbn [snd]; [by rewrite balance_emit|].
    match goal with
    | |- context [fn_call func (conn :: args') kwargs' ?w1] =>
        pose proof (Hf c (conn :: args') kwargs' w1) as H1;
        destruct (fn_call func (conn :: args') kwargs' w1) as [[v|e] w2]
    end; cbn [snd set_cache w_trace] in *; by rewrite H1, balance_emit. }
  destruct args as [|conn rest]; destruct (kwargs !! "conn"); cbn [snd];
    try done; apply Hbody.
Qed.

Lemma retry_on_failure_keeps_connections (time_sleep : Z -> option exn)
    (retries delay : Z) func :
  keeps_connections func ->
  keeps_connections (retry_on_failure time_sleep retries delay func).
Proof.
  intros Hf c args kwargs w. unfold retry_on_failure, wraps. cbn [fn_call].
  generalize (py_range 1 (retries + 1)). intros attempts. revert w.
  induction attempts as [|attempt rest IH]; intros w; [done|].
  cbn [retry_loop].
  pose proof (Hf c args kwargs w) as H1.
  destruct (fn_call func args kwargs w) as [[v|e] w1]; cbn [snd] in *; [done|].
  destruct (isinstance_Exception e); [|done].
  destruct (attempt <? retries)%Z; cycle 1.
  { cbn [snd]. by rewrite !balance_emit. }
  unfold sleep. destruct (time_sleep delay).
  { cbn [snd]. by rewrite !balance_emit. }
  rewrite IH. by rewrite !balance_emit.
Qed.

(** X17. The decorators neither leak connections nor close those of others:
    if the wrapped callable leaves the balance (opens minus closes) of every
    connection as it finds it, so does a call through any stack of the five
    decorators over it, whatever the outcome; the only connection the
    decorators open is the one [with_db_connection] closes in its
    [finally]. *)
Theorem decorated_call_keeps_connections (s : decorated W) func :
  keeps_connections func ->
  forall (c : nat) args kwargs w,
    balance c (w_trace (fn_call (decorate s func) args kwargs w).2)
    = balance c (w_trace w).
Proof.
  intros Hf. change (keeps_connections (decorate s func)).
  induction s as [| rt f IH | f IH | drv f IH | time_sleep retries delay f IH | f IH];
    cbn [decorate].
  - done.
  - by apply log_queries_keeps_connections.
  - by apply with_db_connection_keeps_connections.
  - by apply transactional_keeps_connections.
  - by apply retry_on_failure_keeps_connections.
  - by apply cache_query_keeps_connections.
Qed.

End Connections.

(** ** retry_on_failure: giving up *)

Section GivingUp.

Context {W : Type}.

Implicit Types (w : world W) (d : pydef W) (time_sleep : Z -> option exn).
Implicit Types (args : list value) (kwargs : gmap string value).

Lemma attempt_message_differs (x : string) :
  EvPrint ("[Attempt " +:+ x) <> EvPrint "All retry attempts failed.".
Proof. unfold String.append. discriminate. Qed.

Lemma retrying_message_differs (x : string) :
  EvPrint ("Retrying in " +:+ x) <> EvPrint "All retry attempts failed.".
Proof. unfold String.append. discriminate. Qed.

(** On the attempts [a, ..., retries]: the final message is among the events
    of the loop exactly when every attempt was made and the last one failed
    with an instance of [Exception], which is then the outcome. *)
Lemma retry_loop_gives_up time_sleep d (retries delay : Z) args kwargs :
  forall (n : nat) (a : Z) w,
    (a + Z.of_nat n = retries + 1)%Z ->
    exists evs : list event,
      w_trace (retry_loop time_sleep (define d) retries delay (attempts_from a n)
                 args kwargs w).2
        = w_trace w ++ evs /\
      (EvPrint "All retry attempts failed." ∈ evs <->
       (1 <= n)%nat /\ count_events is_call evs = n /\
       exists e,
         (retry_loop time_sleep (define d) retries delay (attempts_from a n)
                 args kwargs w).1
           = Raise e /\ isinstance_Exception e = true).
Proof.
  induction n as [|n IH]; intros a w Ha.
  { exists []. cbn. rewrite app_nil_r. split; [done|].
    split; [by intros ?%elem_of_nil | lia]. }
  cbn [attempts_from retry_loop]. rewrite define_call.
  destruct (def_body d args kwargs (w_env w)) as [[v|e] u]; cbn [fst snd].
  { exists [EvCall (def_name d) args kwargs]. cbn [fst snd w_trace]. split; [done|].
    split.
    - intros H. apply list_elem_of_singleton in H. discriminate.
    - by intros (_ & _ & e & [=] & _). }
  destruct (isinstance_Exception e) eqn:Hexc; cycle 1.
  { exists [EvCall (def_name d) args kwargs]. cbn [fst snd w_trace]. split; [done|].
    split.
    - intros H. apply list_elem_of_singleton in H. discriminate.
    - intros (_ & _ & e' & [= <-] & He'). congruence. }
  destruct (a <? retries)%Z eqn:Hlt; cycle 1.
  { apply Z.ltb_ge in Hlt.
    eexists [EvCall (def_name d) args kwargs; EvPrint _; EvPrint _].
    cbn [fst snd emit w_trace]. rewrite <- !app_assoc. split; [reflexivity|].
    rewrite !count_events_cons. cbn [is_call]. split.
    - intros _. split; [lia|]. split; [cbn; lia|]. by exists e.
    - intros _. rewrite !elem_of_cons. right; right; by left. }
  apply Z.ltb_lt in Hlt.
  unfold sleep. destruct (time_sleep delay) as [refused|] eqn:Hneg.
  { eexists [EvCall (def_name d) args kwargs; EvPrint _; EvPrint _].
    cbn [fst snd emit w_trace]. rewrite <- !app_assoc. split; [reflexivity|].
    rewrite !count_events_cons. cbn [is_call]. split.
    - intros H. apply elem_of_cons in H as [H|H]; [discriminate|].
      apply elem_of_cons in H as [H|H];
        [symmetry in H; by apply attempt_message_differs in H|].
      apply list_elem_of_singleton in H.
      symmetry in H. by apply retrying_message_differs in H.
    - intros (_ & Hcalls & _). cbn in Hcalls. lia. }
  match goal with
  | |- context [retry_loop _ _ _ _ (attempts_from (a + 1) n) _ _ ?w4] =>
      destruct (IH (a + 1)%Z w4 ltac:(lia)) as (evs & Htrace & Hiff);
      destruct (retry_loop time_sleep (define d) retries delay
                  (attempts_from (a + 1) n) args kwargs w4) as [o w5]
  end.
  cbn [fst snd] in *.
  eexists ([EvCall (def_name d) args kwargs; EvPrint _; EvPrint _; EvSleep delay] ++ evs).
  rewrite Htrace. cbn [emit w_trace]. rewrite <- !app_assoc. split; [reflexivity|].
  rewrite count_events_app, !count_events_cons. cbn [is_call].
  rewrite elem_of_app, Hiff. split.
  - intros [H | (Hn & Hcalls & He)].
    + exfalso.
      apply elem_of_cons in H as [H|H]; [discriminate|].
      apply elem_of_cons in H as [H|H];
        [symmetry in H; by apply attempt_message_differs in H|].
      apply elem_of_cons in H as [H|H];
        [symmetry in H; by apply retrying_message_differs in H|].
      apply list_elem_of_singleton in H. discriminate.
    + split; [lia|]. split; [cbn; lia | done].
  - intros (_ & Hcalls & He). right. split; [lia|]. split; [cbn in Hcalls; lia | done].
Qed.

(** X18. The wrapper prints "All retry attempts failed." exactly when it
    gives up: [retries >= 1], the function was invoked [retries] times, and
    the call ends with the exception of the last invocation, an instance of
    [Exception].  It is not printed when a delay was refused or when an
    exception outside [Exception] went through. *)
Theorem retry_on_failure_gives_up_message time_sleep d (retries delay : Z)
    args kwargs w :
  let r := fn_call (retry_on_failure time_sleep retries delay (define d)) args kwargs w in
  EvPrint "All retry attempts failed." ∈ new_events w r.2 <->
  (1 <= retries)%Z /\
  count_events is_call (new_events w r.2) = Z.to_nat retries /\
  exists e, r.1 = Raise e /\ isinstance_Exception e = true.
Proof.
  intros r. subst r. unfold retry_on_failure, wraps. cbn [fn_call].
  rewrite py_range_attempts.
  destruct (Z.le_gt_cases 1 retries) as [Hpos|Hnone].
  - destruct (retry_loop_gives_up time_sleep d retries delay args kwargs
                (Z.to_nat retries) 1 w)
      as (evs & Htrace & Hiff); [lia|].
    rewrite (new_events_app _ _ _ Htrace), Hiff.
    split; intros (? & ? & ?); (split; [lia | done]).
  - replace (Z.to_nat retries) with 0%nat by lia. cbn [attempts_from retry_loop snd].
    rewrite (new_events_app w w []) by (by rewrite app_nil_r).
    split; [by intros ?%elem_of_nil | lia].
Qed.

End GivingUp.

(** * The further properties at concrete calls *)

Lemma py_split_py_join_statement :
  py_split (py_join " " ["SELECT"; "*"; "FROM"; "users"])
  = ["SELECT"; "*"; "FROM"; "users"].
Proof. apply py_split_py_join. repeat constructor. Defined.

Lemma log_queries_blank_keyword_query :
  exists after : list event,
    new_events world0
      (fn_call (log_queries sample_runtime (define (run_statement sample_rows)))
         [] {[ "query" := VStr "  " ]} world0).2 =
    EvLog INFO "[2024-01-01T00:00:00] Executing SQL in run_statement: "
    :: EvCall "run_statement" [] {[ "query" := VStr "  " ]} :: after.
Proof.
  apply (log_queries_blank_query sample_runtime (run_statement sample_rows)
           [] {[ "query" := VStr "  " ]} world0 "  ").
  - reflexivity.
  - discriminate.
  - reflexivity.
Defined.

Lemma log_queries_none_keyword_query :
  log_queries_query sample_runtime (define (run_statement sample_rows))
    [VStr "SELECT 1"] {[ "query" := VNone ]} = VNone /\
  exists after : list event,
    new_events world0
      (fn_call (log_queries sample_runtime (define (run_statement sample_rows)))
         [VStr "SELECT 1"] {[ "query" := VNone ]} world0).2 =
    EvLog WARNING "[2024-01-01T00:00:00] run_statement called but no query parameter found"
    :: EvCall "run_statement" [VStr "SELECT 1"] {[ "query" := VNone ]} :: after.
Proof.
  assert (Hkw : ({[ "query" := VNone ]} : gmap string value) !! "query" = Some VNone)
    by reflexivity.
  destruct (log_queries_keyword_decides sample_runtime (run_statement sample_rows)
              [VStr "SELECT 1"] {[ "query" := VNone ]} world0 VNone Hkw)
    as [Hq Hwarn].
  split; [exact Hq | exact (Hwarn eq_refl)].
Defined.

Lemma retry_on_failure_refused_delay :
  let r := fn_call (retry_on_failure sample_time_sleep 3 (-1)
                      (define (always_raises (OperationalError "database is locked"))))
             [VConn 0] ∅ world0 in
  sample_time_sleep (-1) = Some (ValueError "sleep length must be non-negative") /\
  r.1 = Raise (ValueError "sleep length must be non-negative") /\
  count_events is_call (new_events world0 r.2) = 1%nat /\
  count_events is_sleep (new_events world0 r.2) = 0%nat.
Proof.
  split; [reflexivity|].
  apply (retry_on_failure_negative_delay sample_time_sleep
           (always_raises (OperationalError "database is locked")) 3 (-1)
           (OperationalError "database is locked")
           (ValueError "sleep length must be non-negative") [VConn 0] ∅ world0).
  - lia.
  - reflexivity.
  - reflexivity.
  - reflexivity.
Defined.

Lemma retry_on_failure_interrupted_second_attempt :
  let d := fails_then_interrupted (OperationalError "database is locked") 1 in
  let r := fn_call (retry_on_failure sample_time_sleep 3 1 (define d))
             [VConn 0] ∅ world0 in
  r.1 = Raise KeyboardInterrupt /\
  count_events is_call (new_events world0 r.2) = 2%nat /\
  last (new_events world0 r.2) = Some (EvCall (def_name d) [VConn 0] ∅).
Proof.
  apply (retry_on_failure_lets_base_exceptions_through sample_time_sleep
           (fails_then_interrupted (OperationalError "database is locked") 1) 3 1
           1 KeyboardInterrupt [VConn 0] ∅ world0).
  - lia.
  - reflexivity.
  - intros i Hi. exists (OperationalError "database is locked").
    destruct i as [|i]; [split; reflexivity | lia].
  - reflexivity.
  - reflexivity.
Defined.

Lemma update_user_email_rolls_back_before_close :
  let d := always_raises (OperationalError "no such table: users") in
  let r := fn_call (with_db_connection (transactional sample_driver (define d)))
             [] ∅ world0 in
  r.1 = Raise (OperationalError "no such table: users") /\
  new_events world0 r.2 =
    [EvConnect "users.db" 0; EvCall "always_raises" [VConn 0] ∅; EvRollback 0;
     EvPrint "Transaction failed: no such table: users"; EvClose 0].
Proof.
  assert (Hkw : (∅ : gmap string value) !! "conn" = None) by reflexivity.
  destruct (with_db_connection_transactional_order sample_driver
              (always_raises (OperationalError "no such table: users")) [] ∅ world0 Hkw)
    as (tx & Hevents & _ & _ & Hraise & _).
  destruct (Hraise (OperationalError "no such table: users") 1%nat
              eq_refl eq_refl eq_refl) as [Hout Htx].
  split; [exact Hout|]. rewrite Hevents, Htx. reflexivity.
Defined.

(** On a closed connection the commit raises after a normal return, the
    rollback raises in turn, and the connection is closed all the same. *)
Example update_user_email_on_closed_connection :
  let r := fn_call (with_db_connection
                      (transactional closed_driver (define (run_statement VNone))))
             [] ∅ world0 in
  r.1 = Raise (ProgrammingError "Cannot operate on a closed database.") /\
  new_events world0 r.2 =
    [EvConnect "users.db" 0; EvCall "run_statement" [VConn 0] ∅; EvCommit 0;
     EvRollback 0; EvClose 0].
Proof. split; reflexivity. Qed.

(** A method [Accounts.update_email] decorated as [update_user_email] is:
    the message names it by its qualified name. *)
Lemma update_user_email_with_keyword_conn :
  let d := PyDef "update_email" "Accounts.update_email" ["conn"; "user_id"]
             (fun _ _ (n : nat) => (Return VNone, S n)) in
  let kw : gmap string value := {[ "conn" := VConn 7 ]} in
  let r := fn_call (with_db_connection (transactional sample_driver (define d)))
             [] kw world0 in
  r.1 = Raise (TypeError
                 "Accounts.update_email() got multiple values for argument 'conn'") /\
  new_events world0 r.2 = [EvConnect "users.db" 0; EvClose 0] /\
  w_env r.2 = 0%nat.
Proof.
  assert (Hkw : ({[ "conn" := VConn 7 ]} : gmap string value) !! "conn"
                = Some (VConn 7)) by reflexivity.
  apply (proj1 (with_db_connection_rejects_keyword_conn sample_driver
                  (PyDef "update_email" "Accounts.update_email" ["conn"; "user_id"]
                     (fun _ _ (n : nat) => (Return VNone, S n)))
                  [] {[ "conn" := VConn 7 ]} world0 (VConn 7) Hkw)).
Defined.

Lemma fetch_users_with_cache_hit_connects :
  let kw : gmap string value := {[ "query" := VStr "SELECT * FROM users" ]} in
  let r := fn_call (with_db_connection (cache_query (define (run_statement (VList [])))))
             [] kw warm_world in
  r.1 = Return sample_rows /\
  new_events warm_world r.2 =
    [EvConnect "users.db" 1; EvPrint "[CACHE HIT] Returning cached result.";
     EvClose 1] /\
  w_env r.2 = 1%nat /\
  query_cache r.2 = query_cache warm_world.
Proof.
  apply (with_db_connection_cache_hit_still_connects (run_statement (VList []))
           [] {[ "query" := VStr "SELECT * FROM users" ]} warm_world
           (KStr "SELECT * FROM users") sample_rows);
    reflexivity.
Defined.

(** The same statement with another bound parameter, sent to another
    function on another connection, is answered by the first result. *)
Lemma query_cache_collision_on_bound_parameters :
  let first := cache_query_wrapper (define (run_statement sample_rows)) (VConn 0)
                 [VStr "SELECT * FROM users WHERE id = ?"; VInt 1] ∅ world0 in
  first.1 = Return sample_rows /\
  cache_query_wrapper (define (run_statement (VList []))) (VConn 1)
    [VStr "SELECT * FROM users WHERE id = ?"; VInt 2] ∅ first.2 =
  (Return sample_rows,
   emit (EvPrint "[CACHE HIT] Returning cached result.") first.2).
Proof.
  split; [reflexivity|].
  apply (query_cache_is_shared_across_functions
           (run_statement sample_rows) (run_statement (VList []))
           (VConn 0) (VConn 1)
           [VStr "SELECT * FROM users WHERE id = ?"; VInt 1]
           [VStr "SELECT * FROM users WHERE id = ?"; VInt 2] ∅ ∅ world0 sample_rows);
    reflexivity.
Defined.

Lemma query_cache_entry_survives_sample_calls :
  query_cache (after_calls sample_calls warm_world) !! KStr "SELECT * FROM users"
    = Some sample_rows /\
  (size (query_cache warm_world) <= size (query_cache (after_calls sample_calls warm_world))
     <= size (query_cache warm_world) + length sample_calls)%nat.
Proof.
  assert (Hk : query_cache warm_world !! KStr "SELECT * FROM users" = Some sample_rows)
    by reflexivity.
  pose proof (query_cache_entries_are_permanent sample_calls warm_world
                (KStr "SELECT * FROM users") sample_rows Hk) as (H1 & H2 & _).
  split; [exact H1 | exact H2].
Defined.

Lemma query_cache_keys_after_sample_calls :
  cache_keys_truthy (after_calls sample_calls world0) /\
  query_cache (after_calls sample_calls world0) !! KNone = None /\
  query_cache (after_calls sample_calls world0) !! KStr EmptyString = None /\
  query_cache (after_calls sample_calls world0) !! KInt 0 = None.
Proof.
  apply (query_cache_never_holds_falsy_key sample_calls world0).
  apply map_Forall_empty.
Defined.

(** [update_user_email] as decorated in 2-transactional.py, on a function
    that fails: the connection opened for the call is closed again. *)
Lemma update_user_email_keeps_connections :
  balance 0
    (w_trace (fn_call (decorate (WithDbConnection (Transactional sample_driver Plain))
                         (define (always_raises (OperationalError "no such table: users"))))
                [] ∅ world0).2)
  = balance 0 (w_trace world0).
Proof.
  apply (decorated_call_keeps_connections
           (WithDbConnection (Transactional sample_driver Plain))
           (define (always_raises (OperationalError "no such table: users")))).
  apply define_keeps_connections.
Defined.
